(** * The type model of the binding generator (generator/genlib/model.py)

    A shallow embedding of the schema model: the raw schema dictionaries, the
    node classes built from them ([EnumType], [Member], [StructureType],
    [FunctionPointerType], ...), the link pass that resolves type names
    against the registry, and the per-member derivations ([swift_type],
    [conversion], [default_swift_value]).

    Conventions.
    - A Python [str] is a [string], and a character of it is a code point
      below 256; the character tests ([isdigit], [isspace], [lower]) answer
      on all of these as Python's do.
    - A schema dictionary is a record: a key read as [data['k']] is a field,
      a key read as [data.get('k')] an optional field.
    - A raised exception is the [Err] case of [result]; the exception class is
      kept, its message is not.
    - An object reference to a type node is the key of that node in the
      registry ([Model.types]); a reference to a sibling member is its
      position in the container's member list.  Both are what Python's object
      identity amounts to here: the registry holds one node per key, and a
      container holds one [Member] object per position. *)

From stdpp Require Import base option list strings pretty gmap.
From Stdlib Require Import ZArith Ascii String.

Local Open Scope string_scope.
Local Open Scope list_scope.

(** ** Exceptions *)

Inductive error : Set :=
| KeyError | IndexError | AttributeError | TypeError | RecursionError.

Inductive result (A : Type) : Type :=
| Ok (a : A)
| Err (e : error).
Arguments Ok {A} a.
Arguments Err {A} e.

#[global] Instance result_ret : MRet result := λ A a, Ok a.
#[global] Instance result_bind : MBind result := λ A B f r,
  match r with Ok a => f a | Err e => Err e end.
#[global] Instance result_fmap : FMap result := λ A B f r,
  match r with Ok a => Ok (f a) | Err e => Err e end.

Definition is_Ok {A} (r : result A) : Prop := ∃ a, r = Ok a.
Definition is_Err {A} (r : result A) : Prop := ∃ e, r = Err e.

(** [[f(x) for x in xs]] where [f] may raise: left to right, the first
    exception wins. *)
Fixpoint traverse {A B} (f : A → result B) (xs : list A) : result (list B) :=
  match xs with
  | [] => Ok []
  | x :: xs' => y ← f x; ys ← traverse f xs'; mret (y :: ys)
  end.

(** ** Strings *)

(** [str.isdigit] on one character: the digits 0 to 9 and, above them, the
    superscripts two (178), three (179) and one (185). *)
Definition isdigit (c : ascii) : bool :=
  let n := nat_of_ascii c in
  ((48 <=? n)%nat && (n <=? 57)%nat)
  || (n =? 178)%nat || (n =? 179)%nat || (n =? 185)%nat.

(** [str.lower] on one character: the letters A to Z and the accented
    capitals 192 to 222, the multiplication sign 215 left out. *)
Definition lower_char (c : ascii) : ascii :=
  let n := nat_of_ascii c in
  if ((65 <=? n)%nat && (n <=? 90)%nat)
     || ((192 <=? n)%nat && (n <=? 222)%nat && negb (n =? 215)%nat)
  then ascii_of_nat (n + 32) else c.

(** [str.lower]. *)
Fixpoint lower (s : string) : string :=
  match s with
  | EmptyString => EmptyString
  | String c s' => String (lower_char c) (lower s')
  end.

(** [s[0]], which raises [IndexError] on the empty string. *)
Definition first_char (s : string) : result ascii :=
  match s with
  | EmptyString => Err IndexError
  | String c _ => Ok c
  end.

(** [s.startswith(p)]. *)
Definition startswith (p s : string) : bool := String.prefix p s.

(** [s.endswith(p)]: [p] is [s] or a tail of it. *)
Fixpoint endswith (p s : string) : bool :=
  String.eqb s p ||
  match s with
  | EmptyString => false
  | String _ s' => endswith p s'
  end.

(** Truthiness of a [str] and of an [Optional[str]]. *)
Definition truthy_str (s : string) : bool :=
  match s with EmptyString => false | _ => true end.

Definition truthy_opt_str (o : option string) : bool :=
  match o with Some s => truthy_str s | None => false end.

(** ** The raw schema *)

(** A literal given as a member's [default]: the integers, strings and
    booleans of a schema file. *)
Inductive literal : Set :=
| LInt (z : Z)
| LStr (s : string)
| LBool (b : bool).

(** One entry of a [members] or [args] list. *)
Record MemberData : Set := {
  md_name : string;                  (* data['name'] *)
  md_type : string;                  (* data['type'] *)
  md_annotation : option string;     (* data.get('annotation') *)
  md_length : option string;         (* data.get('length') *)
  md_default : option literal;       (* data.get('default') *)
  md_optional : bool;                (* data.get('optional', False) *)
  md_tags : option (list string)     (* data.get('tags') *)
}.

(** One entry of a [values] list. *)
Record EnumValueData : Set := {
  evd_name : string;                 (* value['name'] *)
  evd_value : Z;                     (* value['value'] *)
  evd_tags : option (list string)    (* value.get('tags') *)
}.

(** One entry of a [methods] list. *)
Record MethodData : Set := {
  meth_name : string;                       (* data['name'] *)
  meth_tags : option (list string);         (* data.get('tags') *)
  meth_args : option (list MemberData);     (* data.get('args') *)
  meth_returns : option string              (* data.get('returns') *)
}.

(** The dictionary of one type of the schema.  The fields read with a
    subscript are those of the entry's own class ([values] of an enum,
    [members] of a structure, [type] of a typedef); no other class looks at
    them. *)
Record TypeData : Set := {
  td_category : string;                     (* data['category'] *)
  td_tags : option (list string);           (* data.get('tags') *)
  td_values : list EnumValueData;           (* data['values'] *)
  td_members : list MemberData;             (* data['members'] *)
  td_args : option (list MemberData);       (* data.get('args') *)
  td_returns : option string;               (* data.get('returns') *)
  td_methods : option (list MethodData);    (* data.get('methods') *)
  td_type : string                          (* data['type'] *)
}.

(** [d[k]] on the outcome of [d.get(k)]. *)
Definition subscript {A} (o : option A) : result A :=
  match o with Some a => Ok a | None => Err KeyError end.

(** ** Tag filter *)

(** [_is_enabled(data, enabled_tags)], on [data.get('tags')]. *)
Definition _is_enabled (tags : option (list string))
    (enabled_tags : option (list string)) : bool :=
  match tags, enabled_tags with
  | None, _ | Some [], _ => true
  | Some _, None => true
  | Some ts, Some enabled => forallb (λ tag, bool_decide (tag ∈ enabled)) ts
  end.

(** [_is_member_enabled(data)], on [data.get('tags')]. *)
Definition _is_member_enabled (tags : option (list string)) : bool :=
  match tags with
  | None | Some [] => true
  | Some ts => negb (bool_decide ("upstream" ∈ ts))
  end.

(** ** Enumerations *)

Record EnumValue : Set := {
  ev_data : EnumValueData;
  ev_requires_prefix : bool
}.

Module EnumValue.
Definition name (v : EnumValue) : string := evd_name (ev_data v).
Definition value (v : EnumValue) : Z := evd_value (ev_data v).
End EnumValue.

(** The state [EnumType.__init__] adds to a [Type]. *)
Record EnumBody : Set := {
  requires_prefix : bool;
  values : list EnumValue
}.

Module EnumType.

(** [any(value['name'][0].isdigit() for value in values)]: the generator is
    consumed from the left and [any] stops at the first true element, so a
    name after it is never subscripted. *)
Fixpoint any_leading_digit (vs : list EnumValueData) : result bool :=
  match vs with
  | [] => Ok false
  | v :: vs' =>
      c ← first_char (evd_name v);
      if isdigit c then Ok true else any_leading_digit vs'
  end.

(** [[value for value in data['values'] if _is_enabled(value, enabled_tags)]] *)
Definition enabled_values (vs : list EnumValueData)
    (enabled_tags : option (list string)) : list EnumValueData :=
  filter (λ v, _is_enabled (evd_tags v) enabled_tags = true) vs.

(** [EnumType.__init__], past [super().__init__]. *)
Definition init (data : TypeData) (enabled_tags : option (list string))
    : result EnumBody :=
  let vs := enabled_values (td_values data) enabled_tags in
  rp ← any_leading_digit vs;
  mret {| requires_prefix := rp;
          values := map (λ v, {| ev_data := v; ev_requires_prefix := rp |}) vs |}.

End EnumType.


(** ** External collaborators *)

(** The helpers imported from [genlib.nameutils].  Their code is not part of
    the model; every derivation below is stated for arbitrary ones. *)
Class nameutils : Type := {
  camel_case : string → string;
  pascal_case : string → string;
  swift_safe : string → string
}.

(** Modelled from the spec: the catalog of [genlib.typeconversion], which is
    not among the sources.  The spec calls its entries a fixed catalog of
    named conversion strategies, opaque tokens that the model hands on and
    never interprets; each module attribute that [Member.conversion] returns
    is one token, and [Conversion name] is the token built from a callback's
    function name. *)
Inductive Conversion : Set :=
| buffer_length_conversion
| array_length_conversion
| userdata_conversion
| optional_string_conversion
| string_conversion
| buffer_conversion
| enum_array_conversion
| struct_array_conversion
| object_array_conversion
| implicit_array_conversion
| optional_struct_conversion
| struct_pointer_conversion
| implicit_conversion
| enum_conversion
| bitmask_conversion
| struct_conversion
| optional_object_conversion
| object_conversion
| Conversion_ (name : string).

(** ** More string operations *)

(** [s.lstrip(chars)], [s.rstrip(chars)] and [s.strip(chars)], the character
    set given as a predicate. *)
Fixpoint lstrip (p : ascii → bool) (s : string) : string :=
  match s with
  | EmptyString => EmptyString
  | String c s' => if p c then lstrip p s' else s
  end.

Definition rstrip (p : ascii → bool) (s : string) : string :=
  String.rev (lstrip p (String.rev s)).

Definition strip (p : ascii → bool) (s : string) : string :=
  rstrip p (lstrip p s).

(** [str.isspace] on one character: tab to carriage return, the four
    separators 28 to 31, the space, next line (133) and the no-break space
    (160). *)
Definition isspace (c : ascii) : bool :=
  let n := nat_of_ascii c in
  ((9 <=? n)%nat && (n <=? 13)%nat) || ((28 <=? n)%nat && (n <=? 32)%nat)
  || (n =? 133)%nat || (n =? 160)%nat.

(** [s.split(sep)] for a one-character separator. *)
Fixpoint split (sep : ascii) (s : string) : list string :=
  match s with
  | EmptyString => [""]
  | String c s' =>
      if Ascii.eqb c sep then "" :: split sep s'
      else match split sep s' with
           | w :: ws => String c w :: ws
           | [] => [String c ""]
           end
  end.

(** [sep.join(ws)]. *)
Fixpoint join (sep : string) (ws : list string) : string :=
  match ws with
  | [] => ""
  | [w] => w
  | w :: ws' => w +:+ sep +:+ join sep ws'
  end.

(** [c in s] for a character [c]. *)
Fixpoint contains_char (c : ascii) (s : string) : bool :=
  match s with
  | EmptyString => false
  | String c' s' => Ascii.eqb c' c || contains_char c s'
  end.

(** ** Literals *)

(** [str(value)]. *)
Definition str (v : literal) : string :=
  match v with
  | LInt z => pretty z
  | LStr s => s
  | LBool true => "True"
  | LBool false => "False"
  end.

(** Truthiness of a literal. *)
Definition truthy (v : literal) : bool :=
  match v with
  | LInt z => negb (z =? 0)%Z
  | LStr s => truthy_str s
  | LBool b => b
  end.

(** [value == 0 or value == '0'], with Python's [False == 0]. *)
Definition is_zero (v : literal) : bool :=
  match v with
  | LInt z => (z =? 0)%Z
  | LStr s => String.eqb s "0"
  | LBool b => negb b
  end.

(** ** Nodes *)

(** A [Member]: its dictionary and the three attributes [__init__] declares.
    [m_type] is [self.type], [None] until the member is linked. *)
Record Member : Set := {
  m_data : MemberData;
  m_type : option string;
  length_member : option nat;
  length_of : option nat
}.

(** What [FunctionPointerType.__init__] adds to a [Type]. *)
Record FunctionBody : Set := {
  args : list Member;
  return_type : option string
}.

(** A [MethodType]: a function whose name and dictionary come from an entry of
    the object's [methods]. *)
Record MethodType : Set := {
  object_name : string;
  mt_data : MethodData;
  mt_body : FunctionBody
}.

(** The class of a node and the attributes that class adds. *)
Inductive Variant : Set :=
| VNative
| VEnum (e : EnumBody)
| VBitmask (e : EnumBody)
| VStructure (members : list Member)
| VFunctionPointer (f : FunctionBody)
| VFunction (f : FunctionBody)
| VObject (methods : list MethodType)
| VTypedef (type : option string).

(** A [Type]: [self.name], [self.data] and the subclass state. *)
Record TypeNode : Set := {
  t_name : string;
  t_data : TypeData;
  t_variant : Variant
}.

(** [Model.types]: a dictionary in insertion order. *)
Abbreviation registry := (list (string * TypeNode)).

(** [types.get(k)]. *)
Fixpoint dict_get (k : string) (types : registry) : option TypeNode :=
  match types with
  | [] => None
  | (k', t) :: types' => if String.eqb k' k then Some t else dict_get k types'
  end.

(** [types[k] = t]: a known key keeps its place. *)
Fixpoint dict_set (k : string) (t : TypeNode) (types : registry) : registry :=
  match types with
  | [] => [(k, t)]
  | (k', t') :: types' =>
      if String.eqb k' k then (k, t) :: types' else (k', t') :: dict_set k t types'
  end.

(** [Type.category]. *)
Definition category (t : TypeNode) : string := td_category (t_data t).

(** [isinstance(t, FunctionPointerType)], subclasses included. *)
Definition as_function (t : TypeNode) : option FunctionBody :=
  match t_variant t with
  | VFunctionPointer f | VFunction f => Some f
  | _ => None
  end.

(** The table of [NativeType.c_name]. *)
Definition native_names : list (string * string) :=
  [ ("void", "Void");
    ("void *", "UnsafeMutableRawPointer!");
    ("void const *", "UnsafeRawPointer!");
    ("char", "CChar");
    ("float", "Float");
    ("double", "Double");
    ("uint8_t", "UInt8");
    ("uint16_t", "UInt16");
    ("uint32_t", "UInt32");
    ("uint64_t", "UInt64");
    ("int32_t", "Int32");
    ("int64_t", "Int64");
    ("size_t", "Int");
    ("int", "Int32");
    ("bool", "Bool") ].

Fixpoint table_get (k : string) (table : list (string * string)) : result string :=
  match table with
  | [] => Err KeyError
  | (k', v) :: table' => if String.eqb k' k then Ok v else table_get k table'
  end.

Module Type_.
Section with_nameutils.
Context {names : nameutils}.

(** [c_name], by class: [NativeType], [BitmaskType] and [FunctionType]
    override [Type.c_name]. *)
Definition c_name (t : TypeNode) : result string :=
  match t_variant t with
  | VNative => table_get (t_name t) native_names
  | VBitmask _ => Ok ("WGPU" +:+ pascal_case (t_name t) +:+ "Flags")
  | VFunction _ => Ok ("WGPUProc" +:+ pascal_case (t_name t))
  | _ => Ok ("WGPU" +:+ pascal_case (t_name t))
  end.

(** [swift_name]: [NativeType] overrides [Type.swift_name]. *)
Definition swift_name (t : TypeNode) : result string :=
  match t_variant t with
  | VNative => c_name t
  | _ => Ok (pascal_case (lower (t_name t)))
  end.

End with_nameutils.
End Type_.

(** ** Members *)

Module Member.

Definition name (m : Member) : string := md_name (m_data m).
Definition annotation (m : Member) : option string := md_annotation (m_data m).
Definition length (m : Member) : option string := md_length (m_data m).
Definition default (m : Member) : option literal := md_default (m_data m).
Definition optional (m : Member) : bool := md_optional (m_data m).

(** [self.annotation == a]. *)
Definition annotation_is (a : string) (m : Member) : bool :=
  match annotation m with Some a' => String.eqb a' a | None => false end.

(** [self.type], dereferenced for an attribute: an unlinked member has
    [None] there, and an attribute of [None] raises. *)
Definition type (types : registry) (m : Member) : result TypeNode :=
  match m_type m with
  | None => Err AttributeError
  | Some k => subscript (dict_get k types)
  end.

(** [Member.link]. *)
Definition link (types : registry) (m : Member) : result Member :=
  let k := md_type (m_data m) in
  _ ← subscript (dict_get k types);
  mret {| m_data := m_data m; m_type := Some k;
          length_member := length_member m; length_of := length_of m |}.

Section with_nameutils.
Context {names : nameutils}.

Definition c_name (m : Member) : string := camel_case (name m).

Definition swift_name (m : Member) : string :=
  if contains_char " " (name m) then swift_safe (camel_case (lower (name m)))
  else swift_safe (name m).

Definition c_type (types : registry) (m : Member) : result string :=
  if annotation_is "const*" m then
    t ← type types m;
    if String.eqb (t_name t) "void" then Ok "UnsafeRawPointer!"
    else if String.eqb (category t) "object" then
      n ← Type_.c_name t; mret ("UnsafePointer<" +:+ n +:+ "?>!")
    else
      n ← Type_.c_name t; mret ("UnsafePointer<" +:+ n +:+ ">!")
  else if annotation_is "*" m then
    t ← type types m;
    if String.eqb (t_name t) "void" then Ok "UnsafeMutableRawPointer!"
    else n ← Type_.c_name t; mret ("UnsafeMutablePointer<" +:+ n +:+ ">!")
  else
    t ← type types m;
    if String.eqb (category t) "object" then
      n ← Type_.c_name t; mret (n +:+ "!")
    else Type_.c_name t.

(** The tail of [swift_type] that the three idiomatic branches fall into. *)
Definition decorate (t : TypeNode) (m : Member) (swift_type : string) : string :=
  let swift_type :=
    if String.eqb (category t) "function pointer" then "@escaping " +:+ swift_type
    else swift_type in
  if optional m then swift_type +:+ "?" else swift_type.

Definition swift_type (types : registry) (m : Member) : result string :=
  t ← type types m;
  if String.eqb (t_name t) "char" && annotation_is "const*" m then
    Ok (decorate t m "String")
  else if annotation_is "const*" m && truthy_opt_str (length m) then
    if String.eqb (t_name t) "void" then Ok (decorate t m "UnsafeRawBufferPointer")
    else n ← Type_.swift_name t; mret (decorate t m ("[" +:+ n +:+ "]"))
  else if negb (truthy_opt_str (annotation m))
          || (annotation_is "const*" m && String.eqb (category t) "structure") then
    n ← Type_.swift_name t; mret (decorate t m n)
  else c_type types m.

(** [FunctionPointerType.is_callback] and [callback_function_name], placed
    here because [conversion] reads them off the member's type. *)
Definition is_callback (f : FunctionBody) : bool :=
  existsb (λ arg, String.eqb (name arg) "userdata") (args f).

Definition callback_function_name (t : TypeNode) : string :=
  camel_case (lower (t_name t)).

(** [Member.conversion]; [members] is the container's list, which
    [self.length_of] points into. *)
Definition conversion (types : registry) (members : list Member) (m : Member)
    : result Conversion :=
  match length_of m with
  | Some i =>
      array ← match members !! i with
              | Some a => Ok a
              | None => Err IndexError
              end;
      t ← type types array;
      if String.eqb (t_name t) "void" then Ok buffer_length_conversion
      else Ok array_length_conversion
  | None =>
    if String.eqb (name m) "userdata" then Ok userdata_conversion
    else
      t ← type types m;
      if String.eqb (t_name t) "char" && annotation_is "const*" m then
        Ok (if optional m then optional_string_conversion else string_conversion)
      else if annotation_is "const*" m && truthy_opt_str (length m) then
        if String.eqb (t_name t) "void" then Ok buffer_conversion
        else if String.eqb (category t) "enum" then Ok enum_array_conversion
        else if String.eqb (category t) "structure" then Ok struct_array_conversion
        else if String.eqb (category t) "object" then Ok object_array_conversion
        else Ok implicit_array_conversion
      else if annotation_is "const*" m then
        if String.eqb (category t) "structure" then
          Ok (if optional m then optional_struct_conversion
              else struct_pointer_conversion)
        else Ok implicit_conversion
      else if annotation_is "*" m then Ok implicit_conversion
      else if String.eqb (category t) "enum" then Ok enum_conversion
      else if String.eqb (category t) "bitmask" then Ok bitmask_conversion
      else if String.eqb (category t) "structure" then Ok struct_conversion
      else if String.eqb (category t) "object" then
        Ok (if optional m then optional_object_conversion else object_conversion)
      else match as_function t with
           | Some f =>
               if is_callback f then Ok (Conversion_ (callback_function_name t))
               else Ok implicit_conversion
           | None => Ok implicit_conversion
           end
  end.

End with_nameutils.
End Member.

(** ** Rendering a literal: [get_swift_value] *)

(** [all(f(x) for x in xs)]: stops at the first falsy element. *)
Fixpoint all_ {A} (f : A → result bool) (xs : list A) : result bool :=
  match xs with
  | [] => Ok true
  | x :: xs' => f x ≫= λ b : bool, if b then all_ f xs' else Ok false
  end.

Section with_nameutils.
Context {names : nameutils}.

(** [get_swift_value] of each class.  [StructureType.get_swift_value] calls
    the method again on the types of the structure's members; [fuel] bounds
    the depth of these calls as the interpreter's recursion limit does. *)
Fixpoint get_swift_value (fuel : nat) (types : registry) (t : TypeNode)
    (value : literal) : result string :=
  match fuel with
  | 0 => Err RecursionError
  | S fuel' =>
    match t_variant t with
    | VNative =>
        match value with
        | LStr s =>
            if startswith "WGPU_" s then
              n ← Type_.swift_name t; mret (n +:+ "(" +:+ s +:+ ")")
            else if String.eqb s "NAN" then Ok ".nan"
            else if String.eqb (t_name t) "float" then Ok (rstrip (Ascii.eqb "f") s)
            else Ok (str value)
        | _ => Ok (str value)
        end
    | VEnum e | VBitmask e =>
        match value with
        | LStr s =>
            let name := if requires_prefix e then "type " +:+ s else s in
            Ok ("." +:+ camel_case (lower name))
        | _ => Err (if requires_prefix e then TypeError else AttributeError)
        end
    | VStructure members =>
        match value with
        | LStr s =>
            let values :=
              split "," (strip (λ c, Ascii.eqb c "{" || Ascii.eqb c "}") s) in
            args ← traverse (λ '(member, value),
                      mt ← Member.type types member;
                      r ← get_swift_value fuel' types mt (LStr (strip isspace value));
                      mret (Member.swift_name member +:+ ": " +:+ r))
                    (zip members values);
            mret (".init(" +:+ join ", " args +:+ ")")
        | _ => Err AttributeError
        end
    | _ => Ok (str value)
    end
  end.

(** ** Default values *)

(** [StructureType.swift_members]. *)
Definition swift_members (members : list Member) : list Member :=
  filter (λ member, length_of member = None) members.

(** [self.length_member and (self.length_member.default == 0 or
    self.length_member.default == '0')]. *)
Definition length_defaults_to_zero (members : list Member) (m : Member) : bool :=
  match length_member m with
  | Some j =>
      match members !! j with
      | Some lm =>
          match Member.default lm with Some d => is_zero d | None => false end
      | None => false
      end
  | None => false
  end.

(** The last [if] of [Member.default_swift_value]; [initializer] stands for
    [StructureType.has_default_swift_initializer], which is defined from this
    function just below.  [isinstance(None, StructureType)] is false, so an
    unlinked member ends here without an exception. *)
Definition structure_default (initializer : list Member → result bool)
    (types : registry) (m : Member) : result (option string) :=
  match m_type m ≫= λ k, dict_get k types with
  | Some t =>
      match t_variant t with
      | VStructure members' =>
          if negb (truthy_opt_str (Member.annotation m)) then
            initializer members' ≫= λ b : bool,
            if b then n ← Type_.swift_name t; mret (Some (n +:+ "()"))
            else Ok None
          else Ok None
      | _ => Ok None
      end
  | None => Ok None
  end.

(** The body of [Member.default_swift_value]. *)
Definition default_swift_value_body (initializer : list Member → result bool)
    (fuel : nat) (types : registry) (members : list Member) (m : Member)
    : result (option string) :=
  if Member.optional m then Ok (Some "nil")
  else if length_defaults_to_zero members m then Ok (Some "[]")
  else
    match Member.default m with
    | Some d =>
        if truthy d then
          t ← Member.type types m; v ← get_swift_value fuel types t d; mret (Some v)
        else structure_default initializer types m
    | None => structure_default initializer types m
    end.

(** [bool(member.default_swift_value)]. *)
Definition truthy_default (v : option string) : bool := truthy_opt_str v.

(** [StructureType.has_default_swift_initializer], on the structure's
    members.  It and [Member.default_swift_value] call each other through
    structure-typed members; [fuel] bounds the depth. *)
Fixpoint has_default_swift_initializer (fuel : nat) (types : registry)
    (members : list Member) : result bool :=
  match fuel with
  | 0 => Err RecursionError
  | S fuel' =>
      all_ (λ member,
              v ← default_swift_value_body
                    (has_default_swift_initializer fuel' types)
                    fuel' types members member;
              mret (truthy_default v))
           (swift_members members)
  end.

(** [Member.default_swift_value]. *)
Definition default_swift_value (fuel : nat) (types : registry)
    (members : list Member) (m : Member) : result (option string) :=
  default_swift_value_body (has_default_swift_initializer fuel types)
    fuel types members m.

End with_nameutils.

(** ** Containers of members *)

(** [[Member(m) for m in ds if _is_member_enabled(m)]], before pairing. *)
Definition enabled_members (ds : list MemberData) : list MemberData :=
  filter (λ d, _is_member_enabled (md_tags d) = true) ds.

(** [{member.name: member for member in members}]: a later member with the
    same name replaces an earlier one. *)
Definition members_by_name (ds : list MemberData) : gmap string nat :=
  foldl (λ acc '(i, d), <[md_name d := i]> acc) ∅ (imap pair ds).

(** [{member.length: member for member in members if member.length}]. *)
Definition members_by_length (ds : list MemberData) : gmap string nat :=
  foldl (λ acc '(i, d),
           match md_length d with
           | Some l => if truthy_str l then <[l := i]> acc else acc
           | None => acc
           end) ∅ (imap pair ds).

(** The pairing loop that [StructureType.__init__] and
    [FunctionPointerType.__init__] both run over their members. *)
Definition pair_members (ds : list MemberData) : list Member :=
  let by_name := members_by_name ds in
  let by_length := members_by_length ds in
  map (λ d, {| m_data := d;
               m_type := None;
               length_member := md_length d ≫= λ l, by_name !! l;
               length_of := by_length !! md_name d |}) ds.

Module StructureType.

(** [StructureType.__init__], past [super().__init__]. *)
Definition init (data : TypeData) : list Member :=
  pair_members (enabled_members (td_members data)).

(** [StructureType.link]. *)
Definition link (types : registry) (members : list Member) : result (list Member) :=
  traverse (Member.link types) members.

End StructureType.

Module FunctionPointerType.

(** [FunctionPointerType.__init__], on [data.get('args', [])]. *)
Definition init (args_ : option (list MemberData)) : FunctionBody :=
  {| args := pair_members (enabled_members (default [] args_));
     return_type := None |}.

(** [FunctionPointerType.is_callback]. *)
Definition is_callback (f : FunctionBody) : bool := Member.is_callback f.

(** [FunctionPointerType.swift_args]. *)
Definition swift_args (f : FunctionBody) : list Member :=
  filter (λ arg, length_of arg = None ∧ Member.name arg ≠ "userdata") (args f).

(** [FunctionPointerType.link], on [self.data.get('returns')]. *)
Definition link (returns : option string) (types : registry) (f : FunctionBody)
    : result FunctionBody :=
  rt ← match returns with
       | Some r =>
           if truthy_str r && negb (String.eqb r "void") then
             _ ← subscript (dict_get r types); mret (Some r)
           else Ok (return_type f)
       | None => Ok (return_type f)
       end;
  args' ← traverse (Member.link types) (args f);
  mret {| args := args'; return_type := rt |}.

End FunctionPointerType.

Module MethodType_.

(** [MethodType.__init__]. *)
Definition init (object_name : string) (data : MethodData) : MethodType :=
  {| object_name := object_name; mt_data := data;
     mt_body := FunctionPointerType.init (meth_args data) |}.

Definition name (mt : MethodType) : string := meth_name (mt_data mt).

Definition link (types : registry) (mt : MethodType) : result MethodType :=
  body ← FunctionPointerType.link (meth_returns (mt_data mt)) types (mt_body mt);
  mret {| object_name := object_name mt; mt_data := mt_data mt; mt_body := body |}.

End MethodType_.

Module ObjectType.

(** [ObjectType.__init__], past [super().__init__]. *)
Definition init (name : string) (data : TypeData)
    (enabled_tags : option (list string)) : list MethodType :=
  map (MethodType_.init name)
      (filter (λ m, _is_enabled (meth_tags m) enabled_tags = true)
              (default [] (td_methods data))).

Definition link (types : registry) (methods : list MethodType)
    : result (list MethodType) :=
  traverse (MethodType_.link types) methods.

End ObjectType.

Module TypedefType.

(** [TypedefType.link]. *)
Definition link (data : TypeData) (types : registry) : result (option string) :=
  let k := td_type data in
  _ ← subscript (dict_get k types);
  mret (Some k).

End TypedefType.

(** [type_.link(types)], dispatched on the class. *)
Definition link (types : registry) (t : TypeNode) : result TypeNode :=
  v ← match t_variant t with
      | VStructure members => VStructure <$> StructureType.link types members
      | VFunctionPointer f =>
          VFunctionPointer <$> FunctionPointerType.link (td_returns (t_data t)) types f
      | VFunction f =>
          VFunction <$> FunctionPointerType.link (td_returns (t_data t)) types f
      | VObject methods => VObject <$> ObjectType.link types methods
      | VTypedef _ => VTypedef <$> TypedefType.link (t_data t) types
      | v => Ok v
      end;
  mret {| t_name := t_name t; t_data := t_data t; t_variant := v |}.

(** ** The model *)

Module Model.

(** [category_types.get(type_data['category'])] applied to the entry;
    [None] when the category has no class. *)
Definition construct (name : string) (type_data : TypeData)
    (enabled_tags : option (list string)) : result (option Variant) :=
  let c := td_category type_data in
  if String.eqb c "native" then Ok (Some VNative)
  else if String.eqb c "enum" then
    e ← EnumType.init type_data enabled_tags; mret (Some (VEnum e))
  else if String.eqb c "bitmask" then
    e ← EnumType.init type_data enabled_tags; mret (Some (VBitmask e))
  else if String.eqb c "structure" then
    Ok (Some (VStructure (StructureType.init type_data)))
  else if String.eqb c "function pointer" then
    Ok (Some (VFunctionPointer (FunctionPointerType.init (td_args type_data))))
  else if String.eqb c "function" then
    Ok (Some (VFunction (FunctionPointerType.init (td_args type_data))))
  else if String.eqb c "object" then
    Ok (Some (VObject (ObjectType.init name type_data enabled_tags)))
  else if String.eqb c "typedef" then Ok (Some (VTypedef None))
  else Ok None.

(** The first loop of [Model.__init__], over [data.items()]. *)
Fixpoint build (items : list (string * TypeData))
    (enabled_tags : option (list string)) (types : registry) : result registry :=
  match items with
  | [] => Ok types
  | (name, type_data) :: items' =>
      if startswith "_" name then build items' enabled_tags types
      else if negb (_is_enabled (td_tags type_data) enabled_tags) then
        build items' enabled_tags types
      else
        v ← construct name type_data enabled_tags;
        match v with
        | Some v =>
            build items' enabled_tags
              (dict_set name {| t_name := name; t_data := type_data; t_variant := v |}
                        types)
        | None => build items' enabled_tags types
        end
  end.

(** The second loop of [Model.__init__]: every node is linked against the
    registry.  An exception leaves the loop and the constructor at once. *)
Definition link_pass (types : registry) : result registry :=
  traverse (λ '(k, t), t' ← link types t; mret (k, t')) types.

(** [Model.__init__]: the value is [self.types] of the finished model. *)
Definition init (data : list (string * TypeData))
    (enabled_tags : option (list string)) : result registry :=
  types ← build data enabled_tags [];
  link_pass types.

(** [Model.types_by_category]. *)
Definition types_by_category (types : registry) (c : string) : list TypeNode :=
  filter (λ t, category t = c) types.*2.

End Model.

(** ** Further derivations *)

(** [s[n:]]. *)
Fixpoint slice_from (n : nat) (s : string) : string :=
  match n, s with
  | 0, _ => s
  | S n', String _ s' => slice_from n' s'
  | S _, EmptyString => EmptyString
  end.

Module EnumValueNames.
Section with_nameutils.
Context {names : nameutils}.

(** [EnumValue.swift_name]. *)
Definition swift_name (v : EnumValue) : string :=
  let name :=
    if ev_requires_prefix v then "type " +:+ EnumValue.name v else EnumValue.name v in
  swift_safe (camel_case (lower name)).

End with_nameutils.
End EnumValueNames.

Module MemberTarget.
Section with_nameutils.
Context {names : nameutils}.

(** [Member.target_swift_name]; [members] is the container's list, which
    [self.length_of] points into. *)
Definition target_swift_name (members : list Member) (m : Member) : result string :=
  match length_of m with
  | Some i =>
      match members !! i with
      | Some a => Ok (Member.swift_name a)
      | None => Err IndexError
      end
  | None => Ok (Member.swift_name m)
  end.

End with_nameutils.
End MemberTarget.

Module StructureNames.
Section with_nameutils.
Context {names : nameutils}.

(** [StructureType.s_type]. *)
Definition s_type (t : TypeNode) : string := "WGPUSType_" +:+ pascal_case (t_name t).

End with_nameutils.
End StructureNames.

Module FunctionReturns.

(** [FunctionPointerType.return_conversion]; a type node is always truthy,
    so [not self.return_type] is the test for [None]. *)
Definition return_conversion (types : registry) (f : FunctionBody)
    : result (option Conversion) :=
  match return_type f with
  | None => Ok None
  | Some k =>
      t ← subscript (dict_get k types);
      if String.eqb (category t) "object" then Ok (Some object_conversion)
      else Ok (Some implicit_conversion)
  end.

Section with_nameutils.
Context {names : nameutils}.

(** [FunctionPointerType.swift_return_type]. *)
Definition swift_return_type (types : registry) (f : FunctionBody)
    : result (option string) :=
  match return_type f with
  | None => Ok None
  | Some k =>
      t ← subscript (dict_get k types);
      n ← Type_.swift_name t;
      match as_function t with
      | Some _ => Ok (Some (n +:+ "?"))
      | None => Ok (Some n)
      end
  end.

End with_nameutils.
End FunctionReturns.

Module FunctionType.
Section with_nameutils.
Context {names : nameutils}.

(** [FunctionType.c_function_name] and [swift_function_name], on
    [self.name]. *)
Definition c_function_name (name : string) : string := "wgpu" +:+ pascal_case name.

Definition swift_function_name (name : string) : string := camel_case (lower name).

End with_nameutils.

(** [FunctionType.hide_first_arg_label], as the truth value of
    [self.args and self.name.endswith(' ' + self.args[0].name)]. *)
Definition hide_first_arg_label (name : string) (f : FunctionBody) : bool :=
  match args f with
  | [] => false
  | arg :: _ => endswith (" " +:+ Member.name arg) name
  end.

End FunctionType.

Module Method.

(** [MethodType.is_getter], as the truth value of [self.return_type and not
    self.args and self.name.startswith('get ')]. *)
Definition is_getter (mt : MethodType) : bool :=
  match return_type (mt_body mt), args (mt_body mt) with
  | Some _, [] => startswith "get " (MethodType_.name mt)
  | _, _ => false
  end.

(** [MethodType.is_callback_setter]. *)
Definition is_callback_setter (mt : MethodType) : bool :=
  startswith "set " (MethodType_.name mt) && endswith " callback" (MethodType_.name mt).

Section with_nameutils.
Context {names : nameutils}.

Definition c_name (mt : MethodType) : string :=
  "WGPUProc" +:+ pascal_case (object_name mt) +:+ pascal_case (MethodType_.name mt).

Definition c_function_name (mt : MethodType) : string :=
  "wgpu" +:+ pascal_case (object_name mt) +:+ pascal_case (MethodType_.name mt).

(** [MethodType.swift_function_name]: a getter loses its [get ]. *)
Definition swift_function_name (mt : MethodType) : string :=
  let name := MethodType_.name mt in
  let name := if is_getter mt then slice_from 4 name else name in
  camel_case (lower name).

End with_nameutils.
End Method.

Module ObjectNames.
Section with_nameutils.
Context {names : nameutils}.

Definition reference_method_name (t : TypeNode) : string :=
  "wgpu" +:+ pascal_case (t_name t) +:+ "Reference".

Definition release_method_name (t : TypeNode) : string :=
  "wgpu" +:+ pascal_case (t_name t) +:+ "Release".

End with_nameutils.
End ObjectNames.

(** ** Vocabulary of the properties *)






(** The entries of a [members] or [args] list that are not tagged
    [upstream]. *)
Definition not_upstream (d : MemberData) : Prop :=
  "upstream" ∉ default [] (md_tags d).

(** How many of the arguments have the given name. *)
Definition count_named (n : string) (ms : list Member) : nat :=
  List.length (filter (λ m, Member.name m = n) ms).

(** The array strategy that goes with an element type: the raw buffer for
    [void], and otherwise one strategy per category. *)
Definition array_conversion (t : TypeNode) : Conversion :=
  if String.eqb (t_name t) "void" then buffer_conversion
  else if String.eqb (category t) "enum" then enum_array_conversion
  else if String.eqb (category t) "structure" then struct_array_conversion
  else if String.eqb (category t) "object" then object_array_conversion
  else implicit_array_conversion.

Definition array_conversions : list Conversion :=
  [ buffer_conversion; enum_array_conversion; struct_array_conversion;
    object_array_conversion; implicit_array_conversion ].

(** The branch of [swift_type] that hands back [c_type]: none of the string,
    collection and own-name conditions holds. *)
Definition native_fallback (t : TypeNode) (m : Member) : bool :=
  negb (String.eqb (t_name t) "char" && Member.annotation_is "const*" m)
  && negb (Member.annotation_is "const*" m && truthy_opt_str (Member.length m))
  && negb (negb (truthy_opt_str (Member.annotation m))
           || (Member.annotation_is "const*" m
               && String.eqb (category t) "structure")).

(** The dictionary that a comprehension [{key(m): m for m in members if
    key(m)}] builds, for a key that may be missing: the entry of a key is the
    position of the last member that has it. *)
Definition index_by (key : MemberData → option string) (ds : list MemberData)
    : gmap string nat :=
  foldl (λ acc '(i, d), match key d with Some k => <[k := i]> acc | None => acc end)
        ∅ (imap pair ds).

(** The key of [members_by_length]: a length that is not falsy. *)
Definition length_key (d : MemberData) : option string :=
  match md_length d with
  | Some l => if truthy_str l then Some l else None
  | None => None
  end.


(** The type names a node stores for the link pass to resolve: the types of
    its members or arguments, a return type that is neither empty nor
    [void], the target of a typedef. *)
Definition member_references (ms : list Member) : list string :=
  map (λ m, md_type (m_data m)) ms.

Definition return_reference (returns : option string) : list string :=
  match returns with
  | Some r => if truthy_str r && negb (String.eqb r "void") then [r] else []
  | None => []
  end.

Definition function_references (returns : option string) (f : FunctionBody)
    : list string :=
  return_reference returns ++ member_references (args f).

Definition stored_references (t : TypeNode) : list string :=
  match t_variant t with
  | VStructure members => member_references members
  | VFunctionPointer f | VFunction f => function_references (td_returns (t_data t)) f
  | VObject methods =>
      List.concat (map (λ mt, function_references (meth_returns (mt_data mt)) (mt_body mt))
                  methods)
  | VTypedef _ => [td_type (t_data t)]
  | _ => []
  end.

Definition model_references (types : registry) : list string :=
  List.concat (map (λ kt, stored_references kt.2) types).

(** The name is a key of the registry. *)
Definition resolves (types : registry) (r : string) : Prop :=
  is_Some (dict_get r types).

(** Two registries with the same keys. *)
Definition same_keys (T1 T2 : registry) : Prop := ∀ k, resolves T1 k ↔ resolves T2 k.

(** ** Sample schemas *)

Module Samples.

Definition upper_char (c : ascii) : ascii :=
  let n := nat_of_ascii c in
  if (97 <=? n)%nat && (n <=? 122)%nat then ascii_of_nat (n - 32) else c.

Definition capitalize (w : string) : string :=
  match w with
  | EmptyString => EmptyString
  | String c w' => String (upper_char c) w'
  end.

Definition pascal (s : string) : string :=
  join "" (map capitalize (split " " s)).

Definition camel (s : string) : string :=
  match split " " s with
  | [] => ""
  | w :: ws => join "" (lower w :: map capitalize ws)
  end.

(** Modelled from the spec: the identifier-casing utilities of
    [genlib.nameutils] (camel-case, pascal-case, escaping of reserved
    identifiers), which are not among the sources.  The theorems hold for
    every instance; this one only serves to evaluate the derivations on the
    samples below. *)
Definition names : nameutils :=
  {| camel_case := camel; pascal_case := pascal; swift_safe := λ s, s |}.

Definition member (name type : string) (annotation length : option string)
    (default : option literal) (optional : bool) : MemberData :=
  {| md_name := name; md_type := type; md_annotation := annotation;
     md_length := length; md_default := default; md_optional := optional;
     md_tags := None |}.

Definition value (name : string) (z : Z) : EnumValueData :=
  {| evd_name := name; evd_value := z; evd_tags := None |}.

Definition entry (category : string) : TypeData :=
  {| td_category := category; td_tags := None; td_values := [];
     td_members := []; td_args := None; td_returns := None;
     td_methods := None; td_type := "" |}.

Definition native : TypeData := entry "native".

Definition enum (vs : list EnumValueData) : TypeData :=
  {| td_category := "enum"; td_tags := None; td_values := vs;
     td_members := []; td_args := None; td_returns := None;
     td_methods := None; td_type := "" |}.

Definition structure (ms : list MemberData) : TypeData :=
  {| td_category := "structure"; td_tags := None; td_values := [];
     td_members := ms; td_args := None; td_returns := None;
     td_methods := None; td_type := "" |}.

Definition function_pointer (args : list MemberData) (returns : option string)
    : TypeData :=
  {| td_category := "function pointer"; td_tags := None; td_values := [];
     td_members := []; td_args := Some args; td_returns := returns;
     td_methods := None; td_type := "" |}.

Definition typedef (type : string) : TypeData :=
  {| td_category := "typedef"; td_tags := None; td_values := [];
     td_members := []; td_args := None; td_returns := None;
     td_methods := None; td_type := type |}.

(** An enum whose value names start with digits. *)
Definition multisample : TypeData := enum [value "1x" 0; value "2x" 1].



(** Two arrays that share one length member. *)
Definition shared_count : list MemberData :=
  [ member "vertices" "float" (Some "const*") (Some "count") None false;
    member "colors" "float" (Some "const*") (Some "count") None false;
    member "count" "uint32_t" None None None false ].

(** Function arguments of a callback, and of a function that takes two
    context pointers. *)
Definition callback_args : list MemberData :=
  [ member "status" "uint32_t" None None None false;
    member "userdata" "void" (Some "*") None None false ].

Definition two_userdata : list MemberData :=
  [ member "userdata" "void" (Some "*") None None false;
    member "userdata" "void" (Some "*") None None false ].

(** A schema: natives, an enum, structures with a counted array (required
    and optional), a structure member typed by an empty structure and carrying
    the literal default 0, an optional output pointer, a float member whose
    default literal is only the suffix [f], a callback and a typedef. *)
Definition schema : list (string * TypeData) :=
  [ ("uint32_t", native);
    ("void", native);
    ("float", native);
    ("_comment", native);
    ("multisample", multisample);
    ("empty", structure []);
    ("buffer list", structure
       [ member "count" "uint32_t" None None (Some (LInt 0)) false;
         member "items" "uint32_t" (Some "const*") (Some "count") None false ]);
    ("optional list", structure
       [ member "n" "uint32_t" None None None false;
         member "entries" "empty" (Some "const*") (Some "n") None true ]);
    ("holder", structure
       [ member "inner" "empty" None None (Some (LInt 0)) false;
         member "out" "uint32_t" (Some "*") None None true;
         member "mode" "multisample" None None (Some (LStr "1x")) false ]);
    ("scale", structure
       [ member "factor" "float" None None (Some (LStr "f")) false ]);
    ("on done", function_pointer callback_args None);
    ("flags", typedef "uint32_t") ].

(** The same schema with a structure member of an undeclared type. *)
Definition broken_schema : list (string * TypeData) :=
  schema ++ [ ("dangling", structure [ member "x" "missing" None None None false ]) ].

(** The registry of [schema] as the first loop leaves it. *)
Definition unlinked : registry :=
  match Model.build schema None [] with Ok r => r | Err _ => [] end.

(** The registry of [schema], built and linked. *)
Definition types : registry :=
  match Model.init schema None with Ok r => r | Err _ => [] end.

(** The members of a structure of the registry. *)
Definition members_of (k : string) : list Member :=
  match dict_get k types with
  | Some {| t_variant := VStructure ms |} => ms
  | _ => []
  end.

(** Members of the linked registry, by structure and position. *)
Definition linked (d : MemberData) (lm lo : option nat) : Member :=
  {| m_data := d; m_type := Some (md_type d); length_member := lm; length_of := lo |}.

Definition count : Member :=
  linked (member "count" "uint32_t" None None (Some (LInt 0)) false) None (Some 1).

Definition items : Member :=
  linked (member "items" "uint32_t" (Some "const*") (Some "count") None false)
         (Some 0) None.

Definition entries : Member :=
  linked (member "entries" "empty" (Some "const*") (Some "n") None true) (Some 0) None.

Definition inner : Member :=
  linked (member "inner" "empty" None None (Some (LInt 0)) false) None None.

Definition out : Member :=
  linked (member "out" "uint32_t" (Some "*") None None true) None None.

Definition mode : Member :=
  linked (member "mode" "multisample" None None (Some (LStr "1x")) false) None None.

Definition factor : Member :=
  linked (member "factor" "float" None None (Some (LStr "f")) false) None None.

End Samples.

(** ** Vocabulary of the further properties *)


(** The class of the node is the one [category_types] gives for the node's
    category. *)
Definition class_matches (t : TypeNode) : Prop :=
  match t_variant t with
  | VNative => category t = "native"
  | VEnum _ => category t = "enum"
  | VBitmask _ => category t = "bitmask"
  | VStructure _ => category t = "structure"
  | VFunctionPointer _ => category t = "function pointer"
  | VFunction _ => category t = "function"
  | VObject _ => category t = "object"
  | VTypedef _ => category t = "typedef"
  end.

(** A member as [Member.link] leaves it. *)
Definition linked (m : Member) : Member :=
  {| m_data := m_data m; m_type := Some (md_type (m_data m));
     length_member := length_member m; length_of := length_of m |}.

(** The member lists a node owns: the members of a structure, the arguments
    of a function, the arguments of each method of an object. *)
Definition containers (t : TypeNode) : list (list Member) :=
  match t_variant t with
  | VStructure members => [members]
  | VFunctionPointer f | VFunction f => [args f]
  | VObject methods => map (λ mt, args (mt_body mt)) methods
  | _ => []
  end.

(** The member lists of a node before any linking, read off the node's
    dictionary: the entries not tagged [upstream], in the order of the
    schema, paired. *)
Definition declared_containers (enabled_tags : option (list string)) (t : TypeNode)
    : list (list Member) :=
  match t_variant t with
  | VStructure _ => [pair_members (filter not_upstream (td_members (t_data t)))]
  | VFunctionPointer _ | VFunction _ =>
      [pair_members (filter not_upstream (default [] (td_args (t_data t))))]
  | VObject _ =>
      map (λ m, pair_members (filter not_upstream (default [] (meth_args m))))
          (filter (λ m, _is_enabled (meth_tags m) enabled_tags = true)
                  (default [] (td_methods (t_data t))))
  | _ => []
  end.

(** The functions a node owns, each with the [returns] entry of its
    dictionary: a function or function pointer itself, the methods of an
    object. *)
Definition functions (t : TypeNode) : list (option string * FunctionBody) :=
  match t_variant t with
  | VFunctionPointer f | VFunction f => [(td_returns (t_data t), f)]
  | VObject methods => map (λ mt, (meth_returns (mt_data mt), mt_body mt)) methods
  | _ => []
  end.

(** The category that selects the class of a node. *)
Definition class_category (v : Variant) : string :=
  match v with
  | VNative => "native"
  | VEnum _ => "enum"
  | VBitmask _ => "bitmask"
  | VStructure _ => "structure"
  | VFunctionPointer _ => "function pointer"
  | VFunction _ => "function"
  | VObject _ => "object"
  | VTypedef _ => "typedef"
  end.

(** ** More samples *)

Module MoreSamples.

(** The function pointer [on done] of the sample registry. *)
Definition on_done : FunctionBody :=
  {| args := linked <$> pair_members Samples.callback_args; return_type := None |}.

(** A registry with the character type, and an optional string member with
    a length. *)
Definition char_types : registry :=
  [ ("char", {| t_name := "char"; t_data := Samples.native; t_variant := VNative |}) ].

Definition label : Member :=
  linked {| m_data := Samples.member "label" "char" (Some "const*") (Some "strlen")
                        None true;
            m_type := None; length_member := None; length_of := None |}.

(** A member of the sample registry typed by the callback [on done]. *)
Definition callback : Member :=
  linked {| m_data := Samples.member "callback" "on done" None None None false;
            m_type := None; length_member := None; length_of := None |}.

(** A member of the sample registry typed by the enum [multisample], with
    an integer default. *)
Definition level : Member :=
  linked {| m_data := Samples.member "level" "multisample" None None (Some (LInt 1))
                        false;
            m_type := None; length_member := None; length_of := None |}.

(** A getter of an object [device], linked, and a method that is none. *)
Definition get_limits : MethodType :=
  {| object_name := "device";
     mt_data := {| meth_name := "get limits"; meth_tags := None;
                   meth_args := None; meth_returns := Some "uint32_t" |};
     mt_body := {| args := []; return_type := Some "uint32_t" |} |}.


(** A structure with an argument tagged [upstream] and two that are not. *)
Definition tagged_members : list MemberData :=
  [ Samples.member "width" "uint32_t" None None None false;
    {| md_name := "legacy"; md_type := "uint32_t"; md_annotation := None;
       md_length := None; md_default := None; md_optional := false;
       md_tags := Some ["upstream"] |};
    {| md_name := "depth"; md_type := "uint32_t"; md_annotation := None;
       md_length := None; md_default := None; md_optional := false;
       md_tags := Some ["native"] |} ].

Definition tagged_schema : list (string * TypeData) :=
  [ ("uint32_t", Samples.native); ("extent", Samples.structure tagged_members) ].

Definition tagged_types : registry :=
  match Model.init tagged_schema None with Ok r => r | Err _ => [] end.

(** A type named [char] that is declared as a function pointer, and an
    optional [const*] member of it. *)
Definition char_callback_types : registry :=
  [ ("char", {| t_name := "char"; t_data := Samples.function_pointer [] None;
                t_variant := VFunctionPointer (FunctionPointerType.init (Some [])) |}) ].

(** A structure that holds a value of its own type. *)
Definition self_schema : list (string * TypeData) :=
  [ ("node", Samples.structure [ Samples.member "next" "node" None None None false ]) ].

Definition self_types : registry :=
  match Model.init self_schema None with Ok r => r | Err _ => [] end.

Definition next : Member :=
  linked {| m_data := Samples.member "next" "node" None None None false;
            m_type := None; length_member := None; length_of := None |}.

End MoreSamples.

(** * Properties *)

(** ** The samples *)

Lemma sample_schema_links :
  Model.init Samples.schema None = Ok Samples.types
  ∧ Samples.members_of "buffer list" = [Samples.count; Samples.items]
  ∧ Samples.members_of "optional list" !! 1 = Some Samples.entries
  ∧ Samples.members_of "holder" = [Samples.inner; Samples.out; Samples.mode]
  ∧ Samples.members_of "scale" = [Samples.factor].
Proof. split_and!; reflexivity. Qed.

(** ** The result monad *)

Lemma bind_Ok {A B} (r : result A) (f : A → result B) (b : B) :
  r ≫= f = Ok b ↔ ∃ a, r = Ok a ∧ f a = Ok b.
Proof.
  destruct r as [a|e]; simpl; split.
  - eauto.
  - by intros (a' & [= ->] & Hf).
  - done.
  - by intros (a' & Hr & _).
Qed.

Lemma fmap_Ok {A B} (f : A → B) (r : result A) (b : B) :
  f <$> r = Ok b ↔ ∃ a, r = Ok a ∧ b = f a.
Proof.
  destruct r as [a|e]; simpl; split.
  - intros [= <-]. eauto.
  - by intros (a' & [= ->] & ->).
  - done.
  - by intros (a' & Hr & _).
Qed.

Lemma is_Ok_Ok {A} (a : A) : is_Ok (Ok a).
Proof. by exists a. Qed.

Lemma not_is_Ok_Err {A} (e : error) : ¬ is_Ok (@Err A e).
Proof. by intros [? ?]. Qed.

Lemma is_Ok_or_Err {A} (r : result A) : is_Ok r ∨ is_Err r.
Proof. destruct r; [left | right]; by eexists. Qed.

#[local] Hint Resolve is_Ok_Ok : core.

(** ** Strings *)

Lemma endswith_refl p : endswith p p = true.
Proof.
  destruct p as [|c p]; [done|].
  cbn [endswith]. by rewrite String.eqb_refl.
Qed.

Lemma endswith_app base p : endswith p (base +:+ p) = true.
Proof.
  induction base as [|c base IH].
  - apply endswith_refl.
  - change (String c base +:+ p) with (String c (base +:+ p)).
    cbn [endswith]. rewrite IH. apply orb_true_r.
Qed.

Lemma truthy_str_true s : truthy_str s = true ↔ s ≠ "".
Proof. by destruct s. Qed.

(** ** Enumerations *)







Lemma enum_init_Ok data enabled_tags e :
  EnumType.init data enabled_tags = Ok e ↔
  let vs := EnumType.enabled_values (td_values data) enabled_tags in
  EnumType.any_leading_digit vs = Ok (requires_prefix e) ∧
  values e = map (λ v, {| ev_data := v; ev_requires_prefix := requires_prefix e |}) vs.
Proof.
  unfold EnumType.init. cbv zeta. rewrite bind_Ok. split.
  - intros (rp & Hrp & [= <-]). done.
  - intros [Hrp Hvs]. exists (requires_prefix e). split; [done|].
    destruct e; simpl in *. by rewrite Hvs.
Qed.








(** ** Callbacks *)

Lemma is_callback_iff f :
  FunctionPointerType.is_callback f = true ↔
  ∃ arg, arg ∈ args f ∧ Member.name arg = "userdata".
Proof.
  unfold FunctionPointerType.is_callback, Member.is_callback.
  rewrite existsb_exists. setoid_rewrite String.eqb_eq.
  by setoid_rewrite list_elem_of_In.
Qed.

(** C5, as the claim states it, fails: a function pointer with two arguments
    named [userdata] is a callback. *)
Lemma two_userdata_is_callback :
  let f := FunctionPointerType.init (Some Samples.two_userdata) in
  FunctionPointerType.is_callback f = true ∧ count_named "userdata" (args f) = 2.
Proof. split; reflexivity. Qed.

(** C5, amended.  [is_callback] of a function pointer, function or method is
    true exactly when at least one of its arguments is named [userdata]; in
    particular it is true when exactly one is. *)
Theorem is_callback_iff_some_userdata f :
  (FunctionPointerType.is_callback f = true ↔ 0 < count_named "userdata" (args f))
  ∧ (count_named "userdata" (args f) = 1 → FunctionPointerType.is_callback f = true).
Proof.
  assert (Hiff : FunctionPointerType.is_callback f = true ↔
                 0 < count_named "userdata" (args f)).
  { rewrite is_callback_iff. unfold count_named. split.
    - intros (arg & Hin & Hname).
      assert (Hf : arg ∈ filter (λ m, Member.name m = "userdata") (args f))
        by (apply list_elem_of_filter; done).
      destruct (filter _ (args f)); [by apply elem_of_nil in Hf | simpl; lia].
    - intros Hpos.
      destruct (filter (λ m, Member.name m = "userdata") (args f)) as [|arg l] eqn:Hf;
        [simpl in Hpos; lia|].
      assert (Hin : arg ∈ filter (λ m, Member.name m = "userdata") (args f))
        by (rewrite Hf; left).
      apply list_elem_of_filter in Hin as [Hname Hin]. eauto. }
  split; [done|]. intros Hone. apply Hiff. lia.
Qed.

Lemma is_callback_iff_some_userdata_witness :
  let f := FunctionPointerType.init (Some Samples.callback_args) in
  count_named "userdata" (args f) = 1 ∧ FunctionPointerType.is_callback f = true.
Proof.
  intros f. split; [reflexivity|].
  apply (is_callback_iff_some_userdata f). reflexivity.
Defined.

(** ** Length pairing *)

Lemma members_by_name_index ds :
  members_by_name ds = index_by (λ d, Some (md_name d)) ds.
Proof. reflexivity. Qed.

Lemma members_by_length_index ds :
  members_by_length ds = index_by length_key ds.
Proof.
  unfold members_by_length, index_by, length_key.
  generalize (∅ : gmap string nat). generalize (imap pair ds).
  intros l. induction l as [|[i d] l IH]; intros acc; simpl; [done|].
  rewrite IH. by destruct (md_length d) as [s|]; [destruct (truthy_str s)|].
Qed.

Lemma index_by_snoc key ds d :
  index_by key (ds ++ [d]) =
  match key d with
  | Some k => <[k := List.length ds]> (index_by key ds)
  | None => index_by key ds
  end.
Proof.
  unfold index_by. rewrite imap_app, foldl_app. simpl.
  by rewrite Nat.add_0_r.
Qed.

(** The entry of a key is the position of the last member that has it. *)
Lemma index_by_lookup key ds k j :
  index_by key ds !! k = Some j ↔
  (∃ d, ds !! j = Some d ∧ key d = Some k) ∧
  (∀ j' d', j < j' → ds !! j' = Some d' → key d' ≠ Some k).
Proof.
  revert j. induction ds as [|d ds IH] using rev_ind; intros j.
  - unfold index_by. simpl. rewrite lookup_empty. split; [done|].
    by intros [(d & Hd & _) _].
  - rewrite index_by_snoc.
    destruct (decide (key d = Some k)) as [Hk|Hk].
    + rewrite Hk, lookup_insert_eq. split.
      * intros [= <-]. split.
        -- exists d. by rewrite list_lookup_middle.
        -- intros j' d' Hlt Hj'. apply lookup_lt_Some in Hj'.
           rewrite length_app in Hj'. simpl in Hj'. lia.
      * intros [(d0 & Hd0 & Hk0) Hlast].
        pose proof (lookup_lt_Some _ _ _ Hd0) as Hlt.
        rewrite length_app in Hlt. simpl in Hlt.
        destruct (decide (j = List.length ds)) as [->|Hne]; [done|].
        destruct (Hlast (List.length ds) d); [lia | by rewrite list_lookup_middle | done].
    + assert (Hstep : match key d with
                      | Some k' => <[k' := List.length ds]> (index_by key ds)
                      | None => index_by key ds
                      end !! k = index_by key ds !! k).
      { destruct (key d) as [k'|]; [|done].
        rewrite lookup_insert_ne; [done | congruence]. }
      rewrite Hstep, IH. split.
      * intros [(d0 & Hd0 & Hk0) Hlast]. split.
        -- exists d0. split; [|done]. by apply lookup_app_l_Some.
        -- intros j' d' Hlt Hj'.
           apply lookup_app_Some in Hj' as [Hj'|[Hge Hj']]; [by eapply Hlast|].
           apply list_lookup_singleton_Some in Hj' as [_ <-]. done.
      * intros [(d0 & Hd0 & Hk0) Hlast].
        apply lookup_app_Some in Hd0 as [Hd0|[Hge Hd0]].
        -- split; [by exists d0|].
           intros j' d' Hlt Hj'. eapply Hlast; [done|]. by apply lookup_app_l_Some.
        -- apply list_lookup_singleton_Some in Hd0 as [_ <-]. done.
Qed.

Lemma pair_members_lookup ds i m :
  pair_members ds !! i = Some m ↔
  ∃ d, ds !! i = Some d ∧ m_data m = d ∧ m_type m = None ∧
       length_member m = (md_length d ≫= λ l, members_by_name ds !! l) ∧
       length_of m = members_by_length ds !! md_name d.
Proof.
  unfold pair_members. cbv zeta. rewrite list_lookup_fmap. split.
  - destruct (ds !! i) as [d|]; simpl; [|done].
    intros [= <-]. by exists d.
  - intros (d & -> & Hd & Ht & Hlm & Hlo). simpl. f_equal.
    destruct m; simpl in *. by subst.
Qed.

Lemma pair_members_length ds : List.length (pair_members ds) = List.length ds.
Proof. unfold pair_members. cbv zeta. apply length_fmap. Qed.

(** What [length_of] says about the paired member. *)
Lemma length_of_spec ds l L i :
  pair_members ds !! l = Some L →
  length_of L = Some i ↔
  (∃ A, pair_members ds !! i = Some A ∧ Member.length A = Some (Member.name L)
        ∧ Member.name L ≠ "") ∧
  (∀ i' A', i < i' → pair_members ds !! i' = Some A' →
            Member.length A' ≠ Some (Member.name L) ∨ Member.name L = "").
Proof.
  intros (dL & HdL & HL & _ & _ & Hlo)%pair_members_lookup.
  rewrite Hlo, members_by_length_index, index_by_lookup.
  unfold Member.length, Member.name. rewrite HL.
  assert (Hkey : ∀ d, length_key d = Some (md_name dL) ↔
                      md_length d = Some (md_name dL) ∧ md_name dL ≠ "").
  { intros d. unfold length_key.
    destruct (md_length d) as [s|]; [|split; [done | by intros [? _]]].
    destruct (truthy_str s) eqn:Hs.
    - apply truthy_str_true in Hs. split.
      + intros [= <-]. done.
      + by intros [-> _].
    - destruct s; [|done]. split; [done|].
      intros [[= Hs'] Hne]. by destruct Hne. }
  split.
  - intros [(d & Hd & Hk) Hlast]. apply Hkey in Hk as [Hlen Hne]. split.
    + exists {| m_data := d; m_type := None;
                length_member := md_length d ≫= λ l, members_by_name ds !! l;
                length_of := members_by_length ds !! md_name d |}.
      split; [|done]. apply pair_members_lookup. by exists d.
    + intros i' A' Hlt (d' & Hd' & HA' & _)%pair_members_lookup. rewrite HA'.
      left. intros Hlen'. eapply Hlast; [done..|]. by apply Hkey.
  - intros [(A & (d & Hd & HA & _)%pair_members_lookup & Hlen & Hne) Hlast].
    rewrite HA in Hlen. split.
    + exists d. split; [done|]. by apply Hkey.
    + intros i' d' Hlt Hd' [Hlen' _]%Hkey.
      destruct (Hlast i' {| m_data := d'; m_type := None;
                            length_member := md_length d' ≫= λ l, members_by_name ds !! l;
                            length_of := members_by_length ds !! md_name d' |})
        as [Hx|Hx]; [done | apply pair_members_lookup; by exists d' | done..].
Qed.

(** What [length_member] says about the paired member. *)
Lemma length_member_spec ds i A j :
  pair_members ds !! i = Some A →
  length_member A = Some j ↔
  ∃ n, Member.length A = Some n ∧
    (∃ B, pair_members ds !! j = Some B ∧ Member.name B = n) ∧
    (∀ j' B', j < j' → pair_members ds !! j' = Some B' → Member.name B' ≠ n).
Proof.
  intros (dA & HdA & HA & _ & Hlm & _)%pair_members_lookup.
  rewrite Hlm. unfold Member.length, Member.name. rewrite HA.
  destruct (md_length dA) as [n|]; simpl;
    [|split; [done | by intros (n & Hn & _)]].
  rewrite members_by_name_index, index_by_lookup. split.
  - intros [(d & Hd & [= Hk]) Hlast]. exists n. split; [done|]. split.
    + exists {| m_data := d; m_type := None;
                length_member := md_length d ≫= λ l, members_by_name ds !! l;
                length_of := members_by_length ds !! md_name d |}.
      split; [|done]. apply pair_members_lookup. by exists d.
    + intros j' B' Hlt (d' & Hd' & HB' & _)%pair_members_lookup Hn.
      rewrite HB' in Hn. eapply Hlast; [done..|]. by rewrite Hn.
  - intros (n' & [= <-] & (B & (d & Hd & HB & _)%pair_members_lookup & Hn) & Hlast).
    rewrite HB in Hn. split.
    + exists d. by rewrite Hn.
    + intros j' d' Hlt Hd' [= Hn'].
      eapply (Hlast j' {| m_data := d'; m_type := None;
                          length_member := md_length d' ≫= λ l, members_by_name ds !! l;
                          length_of := members_by_length ds !! md_name d' |});
        [done | apply pair_members_lookup; by exists d' | done].
Qed.

(** C2, as the claim states it, fails: when two arrays name the same length
    member, that member's [length_of] is the later array, and the earlier
    array is paired one way only. *)
Lemma shared_length_is_not_mutual :
  let ms := pair_members Samples.shared_count in
  ∃ A B, ms !! 0 = Some A ∧ ms !! 2 = Some B
         ∧ Member.length A = Some (Member.name B)
         ∧ length_member A = Some 2
         ∧ length_of B = Some 1
         ∧ length_of B ≠ Some 0.
Proof. simpl. eexists _, _. split_and!; [reflexivity.. | discriminate]. Qed.

(** C2, amended.  In the members that [StructureType.__init__] and
    [FunctionPointerType.__init__] pair: if [A.length] is a non-empty name
    equal to [B.name], no member after [A] declares that length and no member
    after [B] has that name, then [B.length_of] is [A] and [A.length_member]
    is [B]; and whenever [L.length_of] is [A] and no member after [L] has
    [L]'s name, [A.length] is [L.name] and [A.length_member] is [L]. *)
Theorem pairing_is_mutual_between_last_members ds :
  let ms := pair_members ds in
  (∀ i j A B,
     ms !! i = Some A → ms !! j = Some B →
     Member.length A = Some (Member.name B) → Member.name B ≠ "" →
     (∀ i' A', i < i' → ms !! i' = Some A' →
               Member.length A' ≠ Some (Member.name B)) →
     (∀ j' B', j < j' → ms !! j' = Some B' → Member.name B' ≠ Member.name B) →
     length_of B = Some i ∧ length_member A = Some j)
  ∧ (∀ l i L A,
       ms !! l = Some L → ms !! i = Some A → length_of L = Some i →
       (∀ l' L', l < l' → ms !! l' = Some L' → Member.name L' ≠ Member.name L) →
       Member.length A = Some (Member.name L) ∧ length_member A = Some l).
Proof.
  intros ms. split.
  - intros i j A B HA HB Hlen Hne HlastA HlastB. split.
    + apply (length_of_spec ds j B i HB). split; [by exists A|].
      intros i' A' Hlt HA'. left. by eapply HlastA.
    + apply (length_member_spec ds i A j HA). exists (Member.name B).
      split; [done|]. split; [by exists B | done].
  - intros l i L A HL HA Hlo HlastL.
    apply (length_of_spec ds l L i HL) in Hlo as [(A' & HA' & Hlen & Hne) _].
    fold ms in HA'. rewrite HA in HA'. injection HA' as <-.
    split; [done|].
    apply (length_member_spec ds i A l HA). exists (Member.name L).
    split; [done|]. split; [by exists L | done].
Qed.

Lemma pairing_is_mutual_between_last_members_witness :
  let ms := pair_members Samples.shared_count in
  ∃ A B, ms !! 1 = Some A ∧ ms !! 2 = Some B
         ∧ length_of B = Some 1 ∧ length_member A = Some 2.
Proof.
  intros ms.
  destruct (ms !! 1) as [A|] eqn:HA; [|discriminate HA].
  destruct (ms !! 2) as [B|] eqn:HB; [|discriminate HB].
  exists A, B. split; [done|]. split; [done|].
  injection HA as <-. injection HB as <-.
  apply (proj1 (pairing_is_mutual_between_last_members Samples.shared_count) 1 2);
    [reflexivity | reflexivity | reflexivity | discriminate | |].
  - intros i' A' Hlt HA'.
    destruct i' as [|[|[|i']]]; [lia | lia | | discriminate HA'].
    injection HA' as <-. discriminate.
  - intros j' B' Hlt HB'.
    destruct j' as [|[|[|j']]]; [lia | lia | lia | discriminate HB'].
Defined.

(** ** Conversion strategies *)

Section conversion_facts.
Context {names : nameutils}.

Lemma array_conversion_in t : array_conversion t ∈ array_conversions.
Proof.
  unfold array_conversion, array_conversions.
  repeat case_match; set_solver.
Qed.

(** C1.  A member that is not the length of a sibling, is not named
    [userdata], whose element type is not [char], which is annotated [const*]
    and has a non-empty length name, converts by the array strategy of its
    element type: the buffer for [void], else the enum, structure or object
    array by category, else the implicit array.  The member's [optional] flag
    plays no part. *)
Theorem array_rule_selects_array_conversion types members m t :
  length_of m = None →
  Member.name m ≠ "userdata" →
  Member.type types m = Ok t →
  t_name t ≠ "char" →
  Member.annotation m = Some "const*" →
  (∃ l, Member.length m = Some l ∧ l ≠ "") →
  Member.conversion types members m = Ok (array_conversion t)
  ∧ array_conversion t ∈ array_conversions.
Proof.
  intros Hlo Hname Ht Hchar Hann (l & Hlen & Hl).
  split; [|apply array_conversion_in].
  unfold Member.conversion. rewrite Hlo.
  apply String.eqb_neq in Hname. rewrite Hname.
  rewrite Ht. simpl.
  apply String.eqb_neq in Hchar. rewrite Hchar. simpl.
  unfold Member.annotation_is. rewrite Hann, String.eqb_refl, Hlen. simpl.
  apply truthy_str_true in Hl. rewrite Hl.
  unfold array_conversion. by repeat case_match.
Qed.

End conversion_facts.

Lemma array_rule_selects_array_conversion_witness :
  Member.optional Samples.entries = true
  ∧ Member.conversion (names := Samples.names) Samples.types
      (Samples.members_of "optional list") Samples.entries
    = Ok struct_array_conversion.
Proof.
  split; [reflexivity|].
  refine (proj1 (array_rule_selects_array_conversion (names := Samples.names)
                   Samples.types _ Samples.entries
                   {| t_name := "empty"; t_data := Samples.structure [];
                      t_variant := VStructure [] |} _ _ _ _ _ _));
    [reflexivity | discriminate | reflexivity | discriminate | reflexivity |].
  exists "n". split; [reflexivity | discriminate].
Defined.

(** ** Type signatures *)

Section signature_facts.
Context {names : nameutils}.

Lemma decorate_optional t m s :
  Member.optional m = true → endswith "?" (Member.decorate t m s) = true.
Proof.
  intros Hopt. unfold Member.decorate. rewrite Hopt. apply endswith_app.
Qed.

(** C4, amended.  For an optional member whose signature comes from the
    string, collection or own-type-name branch, [swift_type] ends with the
    marker [?], and it is defined whenever the Swift name of the member's
    type is; on the remaining branch [swift_type] is [c_type] unchanged, with
    no marker added. *)
Theorem optional_marker_on_idiomatic_signatures types m t :
  Member.optional m = true →
  Member.type types m = Ok t →
  (native_fallback t m = false →
     (∀ s, Member.swift_type types m = Ok s → endswith "?" s = true)
     ∧ (is_Ok (Type_.swift_name t) → is_Ok (Member.swift_type types m)))
  ∧ (native_fallback t m = true →
       Member.swift_type types m = Member.c_type types m).
Proof.
  intros Hopt Ht. unfold native_fallback, Member.swift_type.
  rewrite Ht. simpl.
  destruct (String.eqb (t_name t) "char" && Member.annotation_is "const*" m) eqn:Hstr.
  { split; [|done]. intros _. split; [|done].
    intros s [= <-]. by apply decorate_optional. }
  destruct (Member.annotation_is "const*" m && truthy_opt_str (Member.length m))
    eqn:Harr.
  { split; [|done]. intros _.
    destruct (String.eqb (t_name t) "void").
    - split; [|done]. intros s [= <-]. by apply decorate_optional.
    - destruct (Type_.swift_name t) as [n|e]; simpl.
      + split; [|done]. intros s [= <-]. by apply decorate_optional.
      + split; [done|]. by intros [? ?]. }
  destruct (negb (truthy_opt_str (Member.annotation m))
            || Member.annotation_is "const*" m
               && String.eqb (category t) "structure") eqn:Hown.
  { split; [|done]. intros _.
    destruct (Type_.swift_name t) as [n|e]; simpl.
    - split; [|done]. intros s [= <-]. by apply decorate_optional.
    - split; [done|]. by intros [? ?]. }
  split; [done|]. done.
Qed.

End signature_facts.

(** C4, as the claim states it, fails: an optional member annotated as a
    mutable pointer takes the [c_type] branch, whose signature is returned
    before the marker is appended. *)
Lemma optional_out_pointer_has_no_marker :
  Member.optional Samples.out = true
  ∧ Member.swift_type (names := Samples.names) Samples.types Samples.out
    = Ok "UnsafeMutablePointer<UInt32>!"
  ∧ endswith "?" "UnsafeMutablePointer<UInt32>!" = false.
Proof. split_and!; reflexivity. Qed.

Lemma optional_marker_on_idiomatic_signatures_witness :
  Member.swift_type (names := Samples.names) Samples.types Samples.entries
  = Ok "[Empty]?"
  ∧ endswith "?" "[Empty]?" = true.
Proof.
  split; [reflexivity|].
  refine (proj1 (proj1 (optional_marker_on_idiomatic_signatures
                          (names := Samples.names) Samples.types Samples.entries
                          {| t_name := "empty"; t_data := Samples.structure [];
                             t_variant := VStructure [] |} _ _) _) _ _);
    reflexivity.
Defined.

(** ** Default values *)

Lemma all_true {A} (f : A → result bool) xs :
  all_ f xs = Ok true ↔ Forall (λ x, f x = Ok true) xs.
Proof.
  induction xs as [|x xs IH]; simpl.
  - split; [by constructor | done].
  - rewrite Forall_cons. destruct (f x) as [[]|e]; simpl.
    + rewrite IH. tauto.
    + split; [done | by intros [? _]].
    + split; [done | by intros [? _]].
Qed.




Section default_facts.
Context {names : nameutils}.

Lemma has_default_swift_initializer_S fuel types members :
  has_default_swift_initializer (S fuel) types members =
  all_ (λ member, v ← default_swift_value fuel types members member;
                  mret (truthy_default v))
       (swift_members members).
Proof. reflexivity. Qed.


(** *** A result does not depend on the depth allowed *)






(** C9, amended.  A member that is not optional, whose default literal is
    falsy (0, the empty string or false), whose length member (if any) has no
    zero default, and which either is not an unannotated structure-typed
    member or is one whose structure has no default initializer, has no
    derived default: the literal counts by its truthiness, not by the
    presence of the key. *)
Theorem falsy_default_is_absent fuel types members m d :
  Member.optional m = false →
  Member.default m = Some d →
  truthy d = false →
  length_defaults_to_zero members m = false →
  (∀ k t ms,
     m_type m = Some k → dict_get k types = Some t →
     t_variant t = VStructure ms →
     truthy_opt_str (Member.annotation m) = false →
     has_default_swift_initializer fuel types ms = Ok false) →
  default_swift_value fuel types members m = Ok None.
Proof.
  intros Hopt Hd Hfalsy Hlen Hstruct.
  unfold default_swift_value, default_swift_value_body.
  rewrite Hopt, Hlen, Hd, Hfalsy.
  unfold structure_default.
  destruct (m_type m) as [k|]; simpl; [|done].
  destruct (dict_get k types) as [t|] eqn:Ht; [|done].
  destruct (t_variant t) as [| | |ms| | | |] eqn:Hv; try done.
  destruct (truthy_opt_str (Member.annotation m)) eqn:Hann; simpl; [done|].
  by rewrite (Hstruct k t ms eq_refl Ht Hv eq_refl).
Qed.

End default_facts.



(** C9, as the claim states it, fails: [inner] is not optional, has the
    literal default 0 and no length member, yet its derived default is the
    default value of its structure type. *)
Lemma falsy_default_on_structure_member :
  Member.optional Samples.inner = false
  ∧ Member.default Samples.inner = Some (LInt 0)
  ∧ truthy (LInt 0) = false
  ∧ length_member Samples.inner = None
  ∧ default_swift_value (names := Samples.names) 2 Samples.types
      (Samples.members_of "holder") Samples.inner = Ok (Some "Empty()").
Proof. split_and!; reflexivity. Qed.

Lemma falsy_default_is_absent_witness :
  default_swift_value (names := Samples.names) 2 Samples.types
    (Samples.members_of "buffer list") Samples.count = Ok None.
Proof.
  apply (falsy_default_is_absent (names := Samples.names) 2 Samples.types
           _ Samples.count (LInt 0));
    [reflexivity | reflexivity | reflexivity | reflexivity |].
  intros k t ms [= <-] [= <-] Hv. discriminate Hv.
Defined.

(** ** The link pass *)

Lemma traverse_is_Ok {A B} (f : A → result B) xs :
  is_Ok (traverse f xs) ↔ Forall (λ x, is_Ok (f x)) xs.
Proof.
  induction xs as [|x xs IH]; simpl.
  - split; [by constructor | done].
  - rewrite Forall_cons, <- IH. destruct (f x) as [y|e]; simpl.
    + destruct (traverse f xs) as [ys|e]; simpl.
      * split; [done | by intros _; eexists].
      * split; [by intros [? ?] | by intros [_ [? ?]]].
    + split; [by intros [? ?] | by intros [[? ?] _]].
Qed.

Lemma traverse_Err {A B} (f : A → result B) xs e :
  traverse f xs = Err e → ∃ x, x ∈ xs ∧ f x = Err e.
Proof.
  induction xs as [|x xs IH]; simpl; [done|].
  destruct (f x) as [y|e'] eqn:Hx; simpl.
  - destruct (traverse f xs) as [ys|e'']; simpl; [done|].
    intros [= ->]. destruct (IH eq_refl) as (x' & Hin & Hx').
    exists x'. split; [by right | done].
  - intros [= ->]. exists x. split; [by left | done].
Qed.

Lemma traverse_ext {A B} (f g : A → result B) xs :
  (∀ x, f x = g x) → traverse f xs = traverse g xs.
Proof. intros Hfg. induction xs as [|x xs IH]; simpl; [done|]. by rewrite Hfg, IH. Qed.

Lemma traverse_fixed {A} (f : A → result A) xs ys :
  (∀ x y, f x = Ok y → f y = Ok y) →
  traverse f xs = Ok ys → traverse f ys = Ok ys.
Proof.
  intros Hf. revert ys. induction xs as [|x xs IH]; intros ys; simpl.
  - by intros [= <-].
  - destruct (f x) as [y|e] eqn:Hx; simpl; [|done].
    destruct (traverse f xs) as [ys'|e] eqn:Hxs; simpl; [|done].
    intros [= <-]. simpl. by rewrite (Hf x y Hx), (IH ys' eq_refl).
Qed.

Lemma traverse_Ok_fmap {A B C} (f : A → result B) (g : A → C) (h : B → C) xs ys :
  (∀ x y, f x = Ok y → h y = g x) →
  traverse f xs = Ok ys → h <$> ys = g <$> xs.
Proof.
  intros Hf. revert ys. induction xs as [|x xs IH]; intros ys; simpl.
  - by intros [= <-].
  - destruct (f x) as [y|e] eqn:Hx; simpl; [|done].
    destruct (traverse f xs) as [ys'|e] eqn:Hxs; simpl; [|done].
    intros [= <-]. rewrite !fmap_cons. f_equal; [by apply Hf | by apply IH].
Qed.

Lemma resolves_keys types k : resolves types k ↔ k ∈ types.*1.
Proof.
  unfold resolves. induction types as [|[k' t] types IH]; simpl.
  - split; [by intros [? ?] | by intros ?%elem_of_nil].
  - rewrite elem_of_cons. destruct (String.eqb k' k) eqn:Hk.
    + apply String.eqb_eq in Hk. split; [by left | by eexists].
    + apply String.eqb_neq in Hk. rewrite IH. split; [by right|].
      intros [Heq|Hin]; [by destruct Hk | done].
Qed.

Lemma subscript_is_Ok types k : is_Ok (subscript (dict_get k types)) ↔ resolves types k.
Proof.
  unfold resolves. destruct (dict_get k types); simpl.
  - split; by eexists.
  - split; [by intros [? ?] | by intros [? ?]].
Qed.

Lemma subscript_same_keys {B} T1 T2 k (r : result B) :
  same_keys T1 T2 →
  (subscript (dict_get k T1) ≫= λ _, r) = (subscript (dict_get k T2) ≫= λ _, r).
Proof.
  intros Hkeys. specialize (Hkeys k). unfold resolves in Hkeys.
  destruct (dict_get k T1), (dict_get k T2); simpl; try done.
  - by destruct (proj1 Hkeys (mk_is_Some _ _ eq_refl)).
  - by destruct (proj2 Hkeys (mk_is_Some _ _ eq_refl)).
Qed.

(** *** One member *)

Lemma member_link_is_Ok types m :
  is_Ok (Member.link types m) ↔ resolves types (md_type (m_data m)).
Proof.
  unfold Member.link. cbv zeta. rewrite <- subscript_is_Ok.
  destruct (subscript (dict_get (md_type (m_data m)) types)); simpl.
  - split; by eexists.
  - split; by intros [? ?].
Qed.

Lemma member_link_Err types m e : Member.link types m = Err e → e = KeyError.
Proof.
  unfold Member.link. cbv zeta.
  destruct (dict_get (md_type (m_data m)) types); simpl; [done | by intros [= <-]].
Qed.

Lemma member_link_same_keys T1 T2 m :
  same_keys T1 T2 → Member.link T1 m = Member.link T2 m.
Proof. intros Hkeys. unfold Member.link. cbv zeta. by apply subscript_same_keys. Qed.

Lemma member_link_fixed types m m' :
  Member.link types m = Ok m' → Member.link types m' = Ok m'.
Proof.
  unfold Member.link. cbv zeta.
  destruct (dict_get (md_type (m_data m)) types) eqn:Hk; simpl; [|done].
  intros [= <-]. simpl. by rewrite Hk.
Qed.

(** Linking a member sets its type and nothing else. *)
Lemma member_link_Ok types m m' :
  Member.link types m = Ok m' →
  m_data m' = m_data m ∧ m_type m' = Some (md_type (m_data m))
  ∧ length_member m' = length_member m ∧ length_of m' = length_of m.
Proof.
  unfold Member.link. cbv zeta.
  destruct (dict_get (md_type (m_data m)) types); simpl; [|done].
  by intros [= <-].
Qed.

Lemma members_link_is_Ok types ms :
  is_Ok (traverse (Member.link types) ms) ↔
  Forall (resolves types) (member_references ms).
Proof.
  rewrite traverse_is_Ok. unfold member_references. rewrite Forall_fmap.
  apply Forall_proper; [|done]. intros m. apply member_link_is_Ok.
Qed.

Lemma members_link_Err types ms e :
  traverse (Member.link types) ms = Err e → e = KeyError.
Proof. intros (m & _ & Hm)%traverse_Err. by eapply member_link_Err. Qed.

(** *** Functions *)

Lemma function_link_is_Ok returns types f :
  is_Ok (FunctionPointerType.link returns types f) ↔
  Forall (resolves types) (function_references returns f).
Proof.
  unfold FunctionPointerType.link, function_references, return_reference.
  rewrite Forall_app, <- members_link_is_Ok.
  destruct returns as [r|]; simpl.
  - destruct (truthy_str r && negb (String.eqb r "void")); simpl.
    + rewrite Forall_singleton, <- subscript_is_Ok.
      destruct (subscript (dict_get r types)); simpl.
      * destruct (traverse (Member.link types) (args f)); simpl.
        -- split; [by intros _; split; eexists | by intros _; eexists].
        -- split; [by intros [? ?] | by intros [_ [? ?]]].
      * split; [by intros [? ?] | by intros [[? ?] _]].
    + destruct (traverse (Member.link types) (args f)); simpl.
      * split; [by intros _; split; [constructor | eexists] | by intros _; eexists].
      * split; [by intros [? ?] | by intros [_ [? ?]]].
  - destruct (traverse (Member.link types) (args f)); simpl.
    + split; [by intros _; split; [constructor | eexists] | by intros _; eexists].
    + split; [by intros [? ?] | by intros [_ [? ?]]].
Qed.

Lemma function_link_Err returns types f e :
  FunctionPointerType.link returns types f = Err e → e = KeyError.
Proof.
  unfold FunctionPointerType.link.
  destruct (traverse (Member.link types) (args f)) as [ms|e'] eqn:Hargs.
  - destruct returns as [r|]; simpl; [|done].
    destruct (truthy_str r && negb (String.eqb r "void")); simpl; [|done].
    destruct (dict_get r types); simpl; [done | by intros [= <-]].
  - apply members_link_Err in Hargs as ->.
    destruct returns as [r|]; simpl; [|by intros [= <-]].
    destruct (truthy_str r && negb (String.eqb r "void")); simpl; [|by intros [= <-]].
    destruct (dict_get r types); simpl; by intros [= <-].
Qed.

Lemma function_link_same_keys returns T1 T2 f :
  same_keys T1 T2 →
  FunctionPointerType.link returns T1 f = FunctionPointerType.link returns T2 f.
Proof.
  intros Hkeys. unfold FunctionPointerType.link.
  rewrite (traverse_ext (Member.link T1) (Member.link T2))
    by (intros m; by apply member_link_same_keys).
  destruct returns as [r|]; simpl; [|done].
  destruct (truthy_str r && negb (String.eqb r "void")); simpl; [|done].
  pose proof (subscript_same_keys T1 T2 r (Ok (Some r)) Hkeys) as Hr.
  simpl in Hr. unfold mret, result_ret. by rewrite Hr.
Qed.

Lemma function_link_fixed returns types f f' :
  FunctionPointerType.link returns types f = Ok f' →
  FunctionPointerType.link returns types f' = Ok f'.
Proof.
  unfold FunctionPointerType.link.
  destruct (traverse (Member.link types) (args f)) as [ms|e] eqn:Hargs.
  - apply (traverse_fixed _ _ _ (member_link_fixed types)) in Hargs.
    destruct returns as [r|]; simpl.
    + destruct (truthy_str r && negb (String.eqb r "void")); simpl.
      * destruct (dict_get r types); simpl; [|done].
        intros [= <-]. simpl. by rewrite Hargs.
      * intros [= <-]. simpl. by rewrite Hargs.
    + intros [= <-]. simpl. by rewrite Hargs.
  - destruct returns as [r|]; simpl; [|done].
    destruct (truthy_str r && negb (String.eqb r "void")); simpl; [|done].
    by destruct (dict_get r types).
Qed.

(** *** Methods and objects *)

Lemma method_link_is_Ok types mt :
  is_Ok (MethodType_.link types mt) ↔
  Forall (resolves types) (function_references (meth_returns (mt_data mt)) (mt_body mt)).
Proof.
  rewrite <- function_link_is_Ok. unfold MethodType_.link.
  destruct (FunctionPointerType.link _ types (mt_body mt)); simpl.
  - split; by eexists.
  - split; by intros [? ?].
Qed.

Lemma method_link_Err types mt e : MethodType_.link types mt = Err e → e = KeyError.
Proof.
  unfold MethodType_.link.
  destruct (FunctionPointerType.link _ types (mt_body mt)) eqn:Hf; simpl; [done|].
  intros [= <-]. by eapply function_link_Err.
Qed.

Lemma method_link_same_keys T1 T2 mt :
  same_keys T1 T2 → MethodType_.link T1 mt = MethodType_.link T2 mt.
Proof.
  intros Hkeys. unfold MethodType_.link.
  by rewrite (function_link_same_keys _ T1 T2).
Qed.

Lemma method_link_fixed types mt mt' :
  MethodType_.link types mt = Ok mt' → MethodType_.link types mt' = Ok mt'.
Proof.
  unfold MethodType_.link.
  destruct (FunctionPointerType.link _ types (mt_body mt)) as [f'|e] eqn:Hf;
    simpl; [|done].
  intros [= <-]. simpl. by rewrite (function_link_fixed _ _ _ _ Hf).
Qed.

Lemma Forall_concat {A} (P : A → Prop) (ls : list (list A)) :
  Forall P (List.concat ls) ↔ Forall (Forall P) ls.
Proof.
  induction ls as [|l ls IH]; simpl.
  - split; constructor.
  - by rewrite Forall_app, Forall_cons, IH.
Qed.

(** *** One node *)

Lemma link_is_Ok types t :
  is_Ok (link types t) ↔ Forall (resolves types) (stored_references t).
Proof.
  unfold link, stored_references.
  destruct (t_variant t) as [|e|e|ms|f|f|methods|ty]; simpl;
    try (split; [by intros _; constructor | by intros _; eexists]).
  - rewrite <- members_link_is_Ok. unfold StructureType.link.
    destruct (traverse (Member.link types) ms); simpl.
    + split; by eexists.
    + split; by intros [? ?].
  - rewrite <- function_link_is_Ok.
    destruct (FunctionPointerType.link _ types f); simpl.
    + split; by eexists.
    + split; by intros [? ?].
  - rewrite <- function_link_is_Ok.
    destruct (FunctionPointerType.link _ types f); simpl.
    + split; by eexists.
    + split; by intros [? ?].
  - rewrite Forall_concat, Forall_fmap.
    setoid_rewrite <- (Forall_proper _ _ (λ mt, method_link_is_Ok types mt) methods methods eq_refl).
    rewrite <- traverse_is_Ok. unfold ObjectType.link.
    destruct (traverse (MethodType_.link types) methods); simpl.
    + split; by eexists.
    + split; by intros [? ?].
  - rewrite Forall_singleton, <- subscript_is_Ok. unfold TypedefType.link. cbv zeta.
    destruct (subscript (dict_get (td_type (t_data t)) types)); simpl.
    + split; by eexists.
    + split; by intros [? ?].
Qed.

Lemma link_Err types t e : link types t = Err e → e = KeyError.
Proof.
  unfold link.
  destruct (t_variant t) as [|en|en|ms|f|f|methods|ty]; simpl; try done.
  - unfold StructureType.link.
    destruct (traverse (Member.link types) ms) eqn:Hms; simpl; [done|].
    intros [= <-]. by eapply members_link_Err.
  - destruct (FunctionPointerType.link _ types f) eqn:Hf; simpl; [done|].
    intros [= <-]. by eapply function_link_Err.
  - destruct (FunctionPointerType.link _ types f) eqn:Hf; simpl; [done|].
    intros [= <-]. by eapply function_link_Err.
  - unfold ObjectType.link.
    destruct (traverse (MethodType_.link types) methods) eqn:Hms; simpl; [done|].
    intros [= <-]. apply traverse_Err in Hms as (mt & _ & Hmt).
    by eapply method_link_Err.
  - unfold TypedefType.link. cbv zeta.
    destruct (dict_get (td_type (t_data t)) types); simpl; [done | by intros [= <-]].
Qed.

Lemma link_same_keys T1 T2 t : same_keys T1 T2 → link T1 t = link T2 t.
Proof.
  intros Hkeys. unfold link.
  destruct (t_variant t) as [|en|en|ms|f|f|methods|ty]; simpl; try done.
  - unfold StructureType.link.
    by rewrite (traverse_ext (Member.link T1) (Member.link T2))
      by (intros m; by apply member_link_same_keys).
  - by rewrite (function_link_same_keys _ T1 T2).
  - by rewrite (function_link_same_keys _ T1 T2).
  - unfold ObjectType.link.
    by rewrite (traverse_ext (MethodType_.link T1) (MethodType_.link T2))
      by (intros m; by apply method_link_same_keys).
  - unfold TypedefType.link. cbv zeta.
    pose proof (subscript_same_keys T1 T2 (td_type (t_data t))
                  (Ok (Some (td_type (t_data t)))) Hkeys) as Hr.
    simpl in Hr. unfold mret, result_ret. by rewrite Hr.
Qed.

Lemma link_fixed types t t' : link types t = Ok t' → link types t' = Ok t'.
Proof.
  unfold link.
  destruct (t_variant t) as [|en|en|ms|f|f|methods|ty] eqn:Hv; simpl.
  - intros [= <-]. simpl. done.
  - intros [= <-]. simpl. done.
  - intros [= <-]. simpl. done.
  - unfold StructureType.link.
    destruct (traverse (Member.link types) ms) as [ms'|e] eqn:Hms; simpl; [|done].
    intros [= <-]. simpl.
    by rewrite (traverse_fixed _ _ _ (member_link_fixed types) Hms).
  - destruct (FunctionPointerType.link _ types f) as [f'|e] eqn:Hf; simpl; [|done].
    intros [= <-]. simpl. by rewrite (function_link_fixed _ _ _ _ Hf).
  - destruct (FunctionPointerType.link _ types f) as [f'|e] eqn:Hf; simpl; [|done].
    intros [= <-]. simpl. by rewrite (function_link_fixed _ _ _ _ Hf).
  - unfold ObjectType.link.
    destruct (traverse (MethodType_.link types) methods) as [ms'|e] eqn:Hms;
      simpl; [|done].
    intros [= <-]. simpl.
    by rewrite (traverse_fixed _ _ _ (method_link_fixed types) Hms).
  - unfold TypedefType.link. cbv zeta.
    destruct (dict_get (td_type (t_data t)) types) eqn:Hk; simpl; [|done].
    intros [= <-]. simpl. by rewrite Hk.
Qed.

(** *** The whole registry *)

Lemma link_pass_is_Ok types :
  is_Ok (Model.link_pass types) ↔ Forall (resolves types) (model_references types).
Proof.
  unfold Model.link_pass, model_references.
  rewrite traverse_is_Ok, Forall_concat, Forall_fmap.
  apply Forall_proper; [|done]. intros [k t]. simpl.
  rewrite <- link_is_Ok. destruct (link types t); simpl.
  - split; by eexists.
  - split; by intros [? ?].
Qed.

Lemma link_pass_Err types e : Model.link_pass types = Err e → e = KeyError.
Proof.
  intros ([k t] & _ & Hkt)%traverse_Err.
  destruct (link types t) eqn:Ht; simpl in Hkt; [done|].
  injection Hkt as <-. by eapply link_Err.
Qed.

Lemma link_pass_keys types types' :
  Model.link_pass types = Ok types' → types'.*1 = types.*1.
Proof.
  apply traverse_Ok_fmap. intros [k t] [k' t']. simpl.
  destruct (link types t); simpl; [by intros [= <- _] | done].
Qed.

Lemma link_pass_same_keys types types' :
  Model.link_pass types = Ok types' → same_keys types' types.
Proof.
  intros Hkeys%link_pass_keys k. by rewrite !resolves_keys, Hkeys.
Qed.

(** C7.  Once the nodes are built, [Model.__init__] raises [KeyError], and so
    returns no model at all, whenever a node stores a type name that is not a
    key of the registry; it returns a model exactly when every stored type
    name is a key of the registry. *)
Theorem unresolved_reference_aborts_build data enabled_tags types :
  Model.build data enabled_tags [] = Ok types →
  ((∃ r, r ∈ model_references types ∧ ¬ resolves types r) →
     Model.init data enabled_tags = Err KeyError)
  ∧ (is_Ok (Model.init data enabled_tags) ↔
       ∀ r, r ∈ model_references types → resolves types r).
Proof.
  intros Hbuild. unfold Model.init. rewrite Hbuild. simpl.
  pose proof (link_pass_is_Ok types) as Hok. rewrite Forall_forall in Hok.
  split; [|done].
  intros (r & Hin & Hr).
  destruct (Model.link_pass types) as [types'|e] eqn:Hlink.
  - destruct Hr. apply Hok; [by eexists | done].
  - by apply link_pass_Err in Hlink as ->.
Qed.

Lemma unresolved_reference_aborts_build_witness :
  Model.init Samples.broken_schema None = Err KeyError
  ∧ is_Ok (Model.init Samples.schema None).
Proof.
  split.
  - refine (proj1 (unresolved_reference_aborts_build Samples.broken_schema None
                     _ eq_refl) _).
    exists "missing". split.
    + apply list_elem_of_In. vm_compute. auto 20.
    + intros [t Ht]. vm_compute in Ht. discriminate Ht.
  - refine (proj2 (proj2 (unresolved_reference_aborts_build Samples.schema None
                            Samples.unlinked eq_refl)) _).
    intros r Hr. apply list_elem_of_In in Hr. vm_compute in Hr.
    unfold resolves.
    repeat (destruct Hr as [<-|Hr]; [by eexists|]). destruct Hr.
Defined.

(** C8.  Running the link pass over a registry that the link pass has
    produced returns that registry unchanged: every member type, return type,
    typedef target and pairing field keeps its value. *)
Theorem relinking_is_a_no_op types types' :
  Model.link_pass types = Ok types' → Model.link_pass types' = Ok types'.
Proof.
  intros Hlink. pose proof (link_pass_same_keys _ _ Hlink) as Hkeys.
  unfold Model.link_pass in *.
  rewrite (traverse_ext _ (λ '(k, t), t' ← link types t; mret (k, t'))).
  - revert Hlink. apply traverse_fixed. intros [k t] [k' t'].
    destruct (link types t) as [t''|e] eqn:Ht; simpl; [|done].
    intros [= <- <-]. by rewrite (link_fixed _ _ _ Ht).
  - intros [k t]. by rewrite (link_same_keys types' types).
Qed.

Lemma relinking_is_a_no_op_witness :
  Model.init Samples.schema None = Ok Samples.types
  ∧ Model.link_pass Samples.types = Ok Samples.types.
Proof.
  split; [reflexivity|].
  apply (relinking_is_a_no_op Samples.unlinked). reflexivity.
Defined.

(** * Further properties *)

(** ** The tag filter *)

(** X1.  With a set of enabled tags given, an item is enabled exactly when
    every tag it declares is in the set (an item without tags always is);
    with no set given every item is enabled.  So enlarging the set of enabled
    tags never disables an item. *)
Theorem is_enabled_iff_all_tags_enabled tags :
  _is_enabled tags None = true
  ∧ (∀ enabled,
       _is_enabled tags (Some enabled) = true ↔
       ∀ tag, tag ∈ default [] tags → tag ∈ enabled)
  ∧ (∀ enabled enabled',
       enabled ⊆ enabled' →
       _is_enabled tags (Some enabled) = true →
       _is_enabled tags (Some enabled') = true).
Proof.
  assert (Hiff : ∀ enabled,
            _is_enabled tags (Some enabled) = true ↔
            ∀ tag, tag ∈ default [] tags → tag ∈ enabled).
  { intros enabled. destruct tags as [[|tag ts]|]; simpl.
    - split; [by intros _ tag ?%elem_of_nil | done].
    - rewrite andb_true_iff, bool_decide_eq_true, forallb_forall. split.
      + intros [Htag Hts] tag' [->|Hin]%elem_of_cons; [done|].
        apply list_elem_of_In, Hts in Hin. by apply bool_decide_eq_true in Hin.
      + intros Hall. split; [apply Hall; by left|].
        intros tag' Hin. apply bool_decide_eq_true, Hall. right.
        by apply list_elem_of_In.
    - split; [by intros _ tag ?%elem_of_nil | done]. }
  split_and!; [by destruct tags as [[|]|] | done |].
  intros enabled enabled' Hsub. rewrite !Hiff. intros Hall tag Hin.
  apply Hsub. by apply Hall.
Qed.

(** ** The registry as a dictionary *)

Lemma elem_of_dict_set k t types k' t' :
  (k', t') ∈ dict_set k t types → (k', t') = (k, t) ∨ (k', t') ∈ types.
Proof.
  induction types as [|[k0 t0] types IH]; simpl.
  - intros [->|[]%elem_of_nil]%elem_of_cons. by left.
  - destruct (String.eqb k0 k).
    + intros [->|Hin]%elem_of_cons; [by left | right; by right].
    + intros [->|Hin]%elem_of_cons; [right; by left|].
      destruct (IH Hin) as [->|Hin']; [by left | right; by right].
Qed.

Lemma dict_set_keys k t types k' :
  k' ∈ (dict_set k t types).*1 ↔ k' = k ∨ k' ∈ types.*1.
Proof.
  induction types as [|[k0 t0] types IH]; simpl.
  - rewrite elem_of_cons. split; [intros [->|[]%elem_of_nil]; by left|].
    intros [->|[]%elem_of_nil]. by left.
  - destruct (String.eqb k0 k) eqn:Hk.
    + apply String.eqb_eq in Hk as ->. rewrite !fmap_cons, !elem_of_cons. simpl. tauto.
    + rewrite !fmap_cons, !elem_of_cons, IH. simpl. tauto.
Qed.

Lemma dict_set_NoDup k t types : NoDup types.*1 → NoDup (dict_set k t types).*1.
Proof.
  induction types as [|[k0 t0] types IH]; simpl.
  - intros _. apply NoDup_singleton.
  - rewrite NoDup_cons. intros [Hk0 Hnd].
    destruct (String.eqb k0 k) eqn:Hk.
    + apply String.eqb_eq in Hk as ->. rewrite fmap_cons. simpl.
      by apply NoDup_cons.
    + apply String.eqb_neq in Hk. rewrite fmap_cons. simpl.
      apply NoDup_cons. split; [|by apply IH].
      rewrite dict_set_keys. intros [->|Hin]; done.
Qed.

Lemma dict_get_elem_of k t types :
  NoDup types.*1 → (k, t) ∈ types → dict_get k types = Some t.
Proof.
  induction types as [|[k0 t0] types IH]; simpl.
  - by intros _ ?%elem_of_nil.
  - rewrite NoDup_cons. intros [Hk0 Hnd] [[= -> ->]|Hin]%elem_of_cons.
    + by rewrite String.eqb_refl.
    + destruct (String.eqb k0 k) eqn:Hk; [|by apply IH].
      apply String.eqb_eq in Hk as ->. destruct Hk0.
      apply list_elem_of_fmap. by exists (k, t).
Qed.

Lemma dict_get_Some_elem_of k t types : dict_get k types = Some t → (k, t) ∈ types.
Proof.
  induction types as [|[k0 t0] types IH]; simpl; [done|].
  destruct (String.eqb k0 k) eqn:Hk.
  - apply String.eqb_eq in Hk as ->. intros [= ->]. by left.
  - intros Hget. right. by apply IH.
Qed.

(** ** What the first loop builds *)

(** A property of entries that holds of the registry so far, and of every
    node that the loop constructs, holds of the registry the loop returns. *)
Lemma build_Forall (P : string * TypeNode → Prop) data enabled_tags acc types :
  Model.build data enabled_tags acc = Ok types →
  Forall P acc →
  (∀ k td v, (k, td) ∈ data → startswith "_" k = false →
             _is_enabled (td_tags td) enabled_tags = true →
             Model.construct k td enabled_tags = Ok (Some v) →
             P (k, {| t_name := k; t_data := td; t_variant := v |})) →
  Forall P types.
Proof.
  revert acc. induction data as [|[k td] data IH]; intros acc; simpl.
  - by intros [= <-].
  - intros Hbuild Hacc HP.
    assert (HP' : ∀ k' td' v, (k', td') ∈ data → startswith "_" k' = false →
               _is_enabled (td_tags td') enabled_tags = true →
               Model.construct k' td' enabled_tags = Ok (Some v) →
               P (k', {| t_name := k'; t_data := td'; t_variant := v |})).
    { intros k' td' v Hin. apply HP. by right. }
    destruct (startswith "_" k) eqn:Hprivate; [by eapply IH|].
    destruct (_is_enabled (td_tags td) enabled_tags) eqn:Henabled; simpl in Hbuild;
      [|by eapply IH].
    destruct (Model.construct k td enabled_tags) as [[v|]|e] eqn:Hv;
      simpl in Hbuild; [|by eapply IH|done].
    eapply IH; [done| |done].
    apply Forall_forall. intros [k' t'] [[= -> ->]|Hin]%elem_of_dict_set.
    + apply HP; [by left | done..].
    + rewrite Forall_forall in Hacc. by apply Hacc.
Qed.

Lemma build_NoDup data enabled_tags acc types :
  Model.build data enabled_tags acc = Ok types →
  NoDup acc.*1 → NoDup types.*1.
Proof.
  revert acc. induction data as [|[k td] data IH]; intros acc; simpl.
  - by intros [= <-].
  - intros Hbuild Hacc.
    destruct (startswith "_" k); [by eapply IH|].
    destruct (_is_enabled (td_tags td) enabled_tags); simpl in Hbuild; [|by eapply IH].
    destruct (Model.construct k td enabled_tags) as [[v|]|e];
      simpl in Hbuild; [|by eapply IH|done].
    eapply IH; [done|]. by apply dict_set_NoDup.
Qed.


(** The class that [construct] picks, by category. *)
Lemma construct_Some k td enabled_tags v :
  Model.construct k td enabled_tags = Ok (Some v) →
  (td_category td = "native" ∧ v = VNative)
  ∨ (td_category td = "enum" ∧ ∃ e, EnumType.init td enabled_tags = Ok e ∧ v = VEnum e)
  ∨ (td_category td = "bitmask"
     ∧ ∃ e, EnumType.init td enabled_tags = Ok e ∧ v = VBitmask e)
  ∨ (td_category td = "structure" ∧ v = VStructure (StructureType.init td))
  ∨ (td_category td = "function pointer"
     ∧ v = VFunctionPointer (FunctionPointerType.init (td_args td)))
  ∨ (td_category td = "function"
     ∧ v = VFunction (FunctionPointerType.init (td_args td)))
  ∨ (td_category td = "object" ∧ v = VObject (ObjectType.init k td enabled_tags))
  ∨ (td_category td = "typedef" ∧ v = VTypedef None).
Proof.
  unfold Model.construct. cbv zeta.
  destruct (String.eqb_spec (td_category td) "native") as [Hc|_].
  { intros [= <-]. tauto. }
  destruct (String.eqb_spec (td_category td) "enum") as [Hc|_].
  { destruct (EnumType.init td enabled_tags) as [e|]; simpl; [|done].
    intros [= <-]. right; left. eauto. }
  destruct (String.eqb_spec (td_category td) "bitmask") as [Hc|_].
  { destruct (EnumType.init td enabled_tags) as [e|]; simpl; [|done].
    intros [= <-]. right; right; left. eauto. }
  destruct (String.eqb_spec (td_category td) "structure") as [Hc|_].
  { intros [= <-]. tauto. }
  destruct (String.eqb_spec (td_category td) "function pointer") as [Hc|_].
  { intros [= <-]. tauto. }
  destruct (String.eqb_spec (td_category td) "function") as [Hc|_].
  { intros [= <-]. tauto. }
  destruct (String.eqb_spec (td_category td) "object") as [Hc|_].
  { intros [= <-]. tauto. }
  destruct (String.eqb_spec (td_category td) "typedef") as [Hc|_].
  { intros [= <-]. tauto. }
  done.
Qed.

Lemma construct_class_matches k td enabled_tags v :
  Model.construct k td enabled_tags = Ok (Some v) →
  class_matches {| t_name := k; t_data := td; t_variant := v |}.
Proof.
  intros Hv. apply construct_Some in Hv. unfold class_matches, category. simpl.
  destruct Hv as [[? ->]|[(?&?&?&->)|[(?&?&?&->)|[[? ->]|[[? ->]|[[? ->]|[[? ->]|[? ->]]]]]]]];
    done.
Qed.

(** [_is_member_enabled] keeps an entry exactly when it is not tagged
    [upstream]. *)
Lemma is_member_enabled_iff d :
  _is_member_enabled (md_tags d) = true ↔ not_upstream d.
Proof.
  unfold _is_member_enabled, not_upstream.
  destruct (md_tags d) as [[|tag ts]|]; simpl.
  - split; [by intros _ ?%elem_of_nil | done].
  - by rewrite negb_true_iff, bool_decide_eq_false.
  - split; [by intros _ ?%elem_of_nil | done].
Qed.

Lemma enabled_members_not_upstream ds :
  enabled_members ds = filter not_upstream ds.
Proof. apply list_filter_iff, is_member_enabled_iff. Qed.

Lemma construct_containers k td enabled_tags v :
  Model.construct k td enabled_tags = Ok (Some v) →
  containers {| t_name := k; t_data := td; t_variant := v |} =
  declared_containers enabled_tags {| t_name := k; t_data := td; t_variant := v |}.
Proof.
  intros Hv. apply construct_Some in Hv.
  unfold containers, declared_containers. simpl.
  destruct Hv as [[? ->]|[(?&?&?&->)|[(?&?&?&->)|[[? ->]|[[? ->]|[[? ->]|[[? ->]|[? ->]]]]]]]];
    try done.
  - unfold StructureType.init. by rewrite enabled_members_not_upstream.
  - unfold FunctionPointerType.init. simpl. by rewrite enabled_members_not_upstream.
  - unfold FunctionPointerType.init. simpl. by rewrite enabled_members_not_upstream.
  - unfold ObjectType.init. rewrite <- list_fmap_compose.
    apply list_fmap_ext. intros i m _. simpl.
    by rewrite enabled_members_not_upstream.
Qed.

(** ** What the link pass changes *)

Lemma traverse_Forall2 {A B} (f : A → result B) xs ys :
  traverse f xs = Ok ys → Forall2 (λ x y, f x = Ok y) xs ys.
Proof.
  revert ys. induction xs as [|x xs IH]; intros ys; simpl.
  - intros [= <-]. constructor.
  - destruct (f x) as [y|e] eqn:Hx; simpl; [|done].
    destruct (traverse f xs) as [ys'|e]; simpl; [|done].
    intros [= <-]. constructor; [done | by apply IH].
Qed.

Lemma member_link_linked types m m' : Member.link types m = Ok m' → m' = linked m.
Proof.
  unfold Member.link. cbv zeta.
  destruct (dict_get (md_type (m_data m)) types); simpl; [|done].
  by intros [= <-].
Qed.

Lemma members_link_linked types ms ms' :
  traverse (Member.link types) ms = Ok ms' → ms' = linked <$> ms.
Proof.
  intros H%traverse_Forall2. induction H as [|m m' ms ms' Hm _ IH]; [done|].
  rewrite fmap_cons. f_equal; [by eapply member_link_linked | done].
Qed.

Lemma function_link_args returns types f f' :
  FunctionPointerType.link returns types f = Ok f' →
  traverse (Member.link types) (args f) = Ok (args f').
Proof.
  unfold FunctionPointerType.link.
  destruct (match returns with
            | Some r => if truthy_str r && negb (String.eqb r "void")
                        then _ ← subscript (dict_get r types); mret (Some r)
                        else Ok (return_type f)
            | None => Ok (return_type f)
            end) as [rt|e]; simpl; [|done].
  destruct (traverse (Member.link types) (args f)) as [ms|e]; simpl; [|done].
  by intros [= <-].
Qed.

(** Linking a function sets its return type from [returns] when that names a
    type, and leaves it alone otherwise. *)
Lemma function_link_return returns types f f' :
  FunctionPointerType.link returns types f = Ok f' →
  match return_reference returns with
  | r :: _ => return_type f' = Some r ∧ resolves types r
  | [] => return_type f' = return_type f
  end.
Proof.
  unfold FunctionPointerType.link, return_reference.
  destruct returns as [r|]; simpl.
  - destruct (truthy_str r && negb (String.eqb r "void")); simpl.
    + unfold resolves. destruct (dict_get r types) as [t|]; simpl; [|done].
      destruct (traverse (Member.link types) (args f)); simpl; [|done].
      intros [= <-]. simpl. split; [done | by eexists].
    + destruct (traverse (Member.link types) (args f)); simpl; [|done].
      by intros [= <-].
  - destruct (traverse (Member.link types) (args f)); simpl; [|done].
    by intros [= <-].
Qed.

Lemma link_Ok_fields types t t' :
  link types t = Ok t' → t_name t' = t_name t ∧ t_data t' = t_data t.
Proof.
  unfold link. intros (v & _ & [= <-])%bind_Ok. done.
Qed.

Lemma link_class_matches types t t' :
  link types t = Ok t' → class_matches t → class_matches t'.
Proof.
  unfold link, class_matches, category.
  intros (v & Hv & [= <-])%bind_Ok. simpl.
  destruct (t_variant t); simpl in Hv;
    try (apply fmap_Ok in Hv as (? & _ & ->)); try (injection Hv as <-); done.
Qed.

Lemma link_containers types t t' :
  link types t = Ok t' → containers t' = map (map linked) (containers t).
Proof.
  unfold link, containers.
  intros (v & Hv & [= <-])%bind_Ok. simpl.
  destruct (t_variant t) as [|e|e|ms|f|f|methods|ty]; simpl in Hv;
    try (injection Hv as <-; done).
  - apply fmap_Ok in Hv as (ms' & Hms & ->). simpl.
    by rewrite (members_link_linked _ _ _ Hms).
  - apply fmap_Ok in Hv as (f' & Hf & ->). simpl.
    by rewrite (members_link_linked _ _ _ (function_link_args _ _ _ _ Hf)).
  - apply fmap_Ok in Hv as (f' & Hf & ->). simpl.
    by rewrite (members_link_linked _ _ _ (function_link_args _ _ _ _ Hf)).
  - apply fmap_Ok in Hv as (methods' & Hms & ->). simpl.
    apply traverse_Forall2 in Hms.
    induction Hms as [|mt mt' methods methods' Hmt _ IH]; [done|].
    simpl. f_equal; [|done].
    unfold MethodType_.link in Hmt.
    apply bind_Ok in Hmt as (body & Hbody & [= <-]). simpl.
    by rewrite (members_link_linked _ _ _ (function_link_args _ _ _ _ Hbody)).
  - by apply fmap_Ok in Hv as (ty' & _ & ->).
Qed.

(** Every member of a linked node names a key of the registry it was linked
    against. *)
Lemma link_members_resolve types t t' ms m :
  link types t = Ok t' → ms ∈ containers t → m ∈ ms →
  resolves types (md_type (m_data m)).
Proof.
  intros Hlink Hms Hm.
  assert (Hok : is_Ok (link types t)) by (by exists t').
  apply link_is_Ok in Hok. rewrite Forall_forall in Hok. apply Hok.
  unfold stored_references, containers in *.
  destruct (t_variant t) as [|e|e|ms0|f|f|methods|ty];
    try by apply elem_of_nil in Hms.
  - apply list_elem_of_singleton in Hms as ->.
    apply list_elem_of_fmap. by exists m.
  - apply list_elem_of_singleton in Hms as ->.
    apply elem_of_app. right. apply list_elem_of_fmap. by exists m.
  - apply list_elem_of_singleton in Hms as ->.
    apply elem_of_app. right. apply list_elem_of_fmap. by exists m.
  - apply list_elem_of_fmap in Hms as (mt & -> & Hmt).
    apply list_elem_of_In, in_concat.
    exists (function_references (meth_returns (mt_data mt)) (mt_body mt)).
    split.
    + apply in_map_iff. exists mt. split; [done | by apply list_elem_of_In].
    + apply list_elem_of_In, elem_of_app. right.
      apply list_elem_of_fmap. by exists m.
Qed.

Lemma link_pass_Forall2 types types' :
  Model.link_pass types = Ok types' →
  Forall2 (λ kt kt', kt'.1 = kt.1 ∧ link types kt.2 = Ok kt'.2) types types'.
Proof.
  intros H%traverse_Forall2. eapply Forall2_impl; [done|].
  intros [k t] [k' t']. simpl.
  destruct (link types t) as [t''|e]; simpl; [|done].
  by intros [= <- <-].
Qed.

(** Each node of the linked registry comes from linking a node of the
    registry it was linked from, under the same key. *)
Lemma link_pass_elem_of types types' k t' :
  Model.link_pass types = Ok types' → (k, t') ∈ types' →
  ∃ t, (k, t) ∈ types ∧ link types t = Ok t'.
Proof.
  intros Hpass%link_pass_Forall2 Hin.
  apply list_elem_of_lookup in Hin as [i Hi].
  destruct (Forall2_lookup_r _ _ _ _ _ Hpass Hi) as ([k0 t] & Ht & Hk & Hlink).
  simpl in *. subst. exists t. split; [|done].
  apply list_elem_of_lookup. by exists i.
Qed.

Lemma link_functions types t t' returns f' :
  link types t = Ok t' → (returns, f') ∈ functions t' →
  ∃ f, (returns, f) ∈ functions t ∧ FunctionPointerType.link returns types f = Ok f'.
Proof.
  unfold link, functions.
  intros (v & Hv & [= <-])%bind_Ok. simpl.
  destruct (t_variant t) as [|e|e|ms|f|f|methods|ty]; simpl in Hv;
    try (injection Hv as <-; by intros ?%elem_of_nil).
  - apply fmap_Ok in Hv as (ms' & _ & ->). by intros ?%elem_of_nil.
  - apply fmap_Ok in Hv as (f0 & Hf & ->).
    intros [= -> ->]%list_elem_of_singleton. exists f. split; [by left | done].
  - apply fmap_Ok in Hv as (f0 & Hf & ->).
    intros [= -> ->]%list_elem_of_singleton. exists f. split; [by left | done].
  - apply fmap_Ok in Hv as (methods' & Hms & ->).
    intros (mt' & [= -> ->] & Hmt')%list_elem_of_fmap.
    apply traverse_Forall2 in Hms.
    apply list_elem_of_lookup in Hmt' as [i Hi].
    destruct (Forall2_lookup_r _ _ _ _ _ Hms Hi) as (mt & Hmt & Hlink).
    unfold MethodType_.link in Hlink.
    apply bind_Ok in Hlink as (body & Hbody & [= <-]). simpl.
    exists (mt_body mt). split; [|done].
    apply list_elem_of_fmap. exists mt. split; [done|].
    apply list_elem_of_lookup. by exists i.
  - apply fmap_Ok in Hv as (ty' & _ & ->). by intros ?%elem_of_nil.
Qed.

Lemma construct_functions k td enabled_tags v returns f :
  Model.construct k td enabled_tags = Ok (Some v) →
  (returns, f) ∈ functions {| t_name := k; t_data := td; t_variant := v |} →
  return_type f = None.
Proof.
  intros Hv. apply construct_Some in Hv. unfold functions. simpl.
  destruct Hv as [[? ->]|[(?&?&?&->)|[(?&?&?&->)|[[? ->]|[[? ->]|[[? ->]|[[? ->]|[? ->]]]]]]]];
    try by intros ?%elem_of_nil.
  - by intros [= -> ->]%list_elem_of_singleton.
  - by intros [= -> ->]%list_elem_of_singleton.
  - unfold ObjectType.init. rewrite <- list_fmap_compose.
    by intros (m & [= -> ->] & _)%list_elem_of_fmap.
Qed.

Lemma link_declared_containers enabled_tags types t t' :
  link types t = Ok t' →
  declared_containers enabled_tags t' = declared_containers enabled_tags t.
Proof.
  unfold link, declared_containers.
  intros (v & Hv & [= <-])%bind_Ok. simpl.
  destruct (t_variant t); simpl in Hv;
    try (apply fmap_Ok in Hv as (? & _ & ->)); try (injection Hv as <-); done.
Qed.

(** ** The finished model *)

Lemma init_NoDup data enabled_tags types :
  Model.init data enabled_tags = Ok types → NoDup types.*1.
Proof.
  unfold Model.init. intros (types0 & Hbuild & Hpass)%bind_Ok.
  rewrite (link_pass_keys _ _ Hpass).
  eapply build_NoDup; [done|]. constructor.
Qed.

(** Where a node of the finished model comes from: an entry of the schema
    that passes the filters, built by [construct] and then linked. *)
Lemma init_node data enabled_tags types k t :
  Model.init data enabled_tags = Ok types → (k, t) ∈ types →
  ∃ types0 v0,
    Model.build data enabled_tags [] = Ok types0
    ∧ Model.link_pass types0 = Ok types
    ∧ (k, t_data t) ∈ data
    ∧ startswith "_" k = false
    ∧ _is_enabled (td_tags (t_data t)) enabled_tags = true
    ∧ Model.construct k (t_data t) enabled_tags = Ok (Some v0)
    ∧ link types0 {| t_name := k; t_data := t_data t; t_variant := v0 |} = Ok t.
Proof.
  unfold Model.init. intros (types0 & Hbuild & Hpass)%bind_Ok Hin.
  destruct (link_pass_elem_of _ _ _ _ Hpass Hin) as (t0 & Hin0 & Hlink).
  assert (Hall : Forall
    (λ kt, t_name kt.2 = kt.1 ∧ (kt.1, t_data kt.2) ∈ data
           ∧ startswith "_" kt.1 = false
           ∧ _is_enabled (td_tags (t_data kt.2)) enabled_tags = true
           ∧ Model.construct kt.1 (t_data kt.2) enabled_tags = Ok (Some (t_variant kt.2)))
    types0).
  { eapply build_Forall; [done | constructor |].
    intros k' td v Hk' Hp He Hv. simpl. done. }
  rewrite Forall_forall in Hall.
  destruct (Hall (k, t0) Hin0) as (Hname & Hdata & Hprivate & Henabled & Hv).
  simpl in *. destruct (link_Ok_fields _ _ _ Hlink) as [_ Hd].
  exists types0, (t_variant t0). rewrite Hd. split_and!; try done.
  destruct t0 as [n0 d0 v0]. simpl in *. by subst.
Qed.

(** X2.  In a model that [Model.__init__] returns, the registry has one node
    per key, each node is stored under its own name and is what a lookup of
    that name gives, no key is private (starts with an underscore), and each
    node carries the dictionary of an enabled schema entry of that name and
    has the class that the entry's category selects. *)
Theorem registry_nodes_are_keyed_by_name data enabled_tags types :
  Model.init data enabled_tags = Ok types →
  NoDup types.*1
  ∧ ∀ k t, (k, t) ∈ types →
      t_name t = k
      ∧ dict_get (t_name t) types = Some t
      ∧ startswith "_" k = false
      ∧ (k, t_data t) ∈ data
      ∧ _is_enabled (td_tags (t_data t)) enabled_tags = true
      ∧ class_matches t.
Proof.
  intros Hinit. pose proof (init_NoDup _ _ _ Hinit) as Hnd.
  split; [done|]. intros k t Hin.
  destruct (init_node _ _ _ _ _ Hinit Hin)
    as (types0 & v0 & _ & _ & Hdata & Hprivate & Henabled & Hv & Hlink).
  destruct (link_Ok_fields _ _ _ Hlink) as [Hname _]. simpl in Hname.
  split_and!; try done.
  - rewrite Hname. by apply dict_get_elem_of.
  - eapply link_class_matches; [done|]. by eapply construct_class_matches.
Qed.

Lemma registry_nodes_are_keyed_by_name_witness :
  NoDup Samples.types.*1
  ∧ ∀ k t, (k, t) ∈ Samples.types → t_name t = k.
Proof.
  destruct (registry_nodes_are_keyed_by_name Samples.schema None Samples.types eq_refl)
    as [Hnd Hall].
  split; [done|]. intros k t Hin. by destruct (Hall k t Hin).
Defined.




Lemma init_containers data enabled_tags types k t :
  Model.init data enabled_tags = Ok types → (k, t) ∈ types →
  containers t = map (map linked) (declared_containers enabled_tags t).
Proof.
  intros Hinit Hin.
  destruct (init_node _ _ _ _ _ Hinit Hin)
    as (types0 & v0 & _ & _ & _ & _ & _ & Hv & Hlink).
  rewrite (link_containers _ _ _ Hlink), (link_declared_containers _ _ _ _ Hlink).
  by rewrite (construct_containers _ _ _ _ Hv).
Qed.

Lemma init_member_type data enabled_tags types k t ms m :
  Model.init data enabled_tags = Ok types → (k, t) ∈ types →
  ms ∈ containers t → m ∈ ms →
  ∃ t', Member.type types m = Ok t' ∧ t_name t' = md_type (m_data m).
Proof.
  intros Hinit Hin Hms Hm.
  destruct (init_node _ _ _ _ _ Hinit Hin)
    as (types0 & v0 & _ & Hpass & _ & _ & _ & _ & Hlink).
  rewrite (link_containers _ _ _ Hlink) in Hms.
  apply list_elem_of_fmap in Hms as (ms0 & -> & Hms0).
  apply list_elem_of_fmap in Hm as (m0 & -> & Hm0).
  pose proof (link_members_resolve _ _ _ _ _ Hlink Hms0 Hm0) as Hres.
  apply (link_pass_same_keys _ _ Hpass) in Hres as [t' Ht'].
  exists t'. unfold Member.type. simpl. rewrite Ht'. split; [done|].
  apply dict_get_Some_elem_of in Ht'.
  destruct (init_node _ _ _ _ _ Hinit Ht')
    as (types1 & v1 & _ & _ & _ & _ & _ & _ & Hlink').
  by destruct (link_Ok_fields _ _ _ Hlink') as [-> _].
Qed.

(** X4.  In a model that [Model.__init__] returns, the members of a
    structure, the arguments of a function and the arguments of each
    tag-enabled method are the entries of the schema list that are not tagged
    [upstream], all of them and in schema order, paired as the constructor
    pairs them and each linked to the type its entry names: linking changes
    no data and no pairing field. *)
Theorem containers_are_the_declared_members_linked data enabled_tags types k t :
  Model.init data enabled_tags = Ok types → (k, t) ∈ types →
  containers t = map (map linked) (declared_containers enabled_tags t).
Proof. apply init_containers. Qed.

Lemma containers_are_the_declared_members_linked_witness :
  ∃ t width depth,
    dict_get "extent" MoreSamples.tagged_types = Some t
    ∧ containers t = [[width; depth]]
    ∧ Member.name width = "width" ∧ Member.name depth = "depth".
Proof.
  destruct (dict_get "extent" MoreSamples.tagged_types) as [t|] eqn:Ht;
    [|discriminate Ht].
  pose proof (containers_are_the_declared_members_linked MoreSamples.tagged_schema
                None MoreSamples.tagged_types "extent" t eq_refl
                (dict_get_Some_elem_of _ _ _ Ht)) as Hc.
  injection Ht as <-. eexists _, _, _. split; [reflexivity|].
  split; [exact Hc|]. split; reflexivity.
Defined.

(** X5.  In a model that [Model.__init__] returns, every member of every
    structure and every argument of every function and method is linked: its
    type is a node of the registry, and that node's name is the type name of
    the member's dictionary. *)
Theorem every_member_type_resolves data enabled_tags types k t ms m :
  Model.init data enabled_tags = Ok types → (k, t) ∈ types →
  ms ∈ containers t → m ∈ ms →
  ∃ t', Member.type types m = Ok t' ∧ t_name t' = md_type (m_data m).
Proof. apply init_member_type. Qed.

Lemma every_member_type_resolves_witness :
  ∃ t', Member.type Samples.types Samples.items = Ok t' ∧ t_name t' = "uint32_t".
Proof.
  destruct (dict_get "buffer list" Samples.types) as [t|] eqn:Ht; [|discriminate Ht].
  apply (every_member_type_resolves Samples.schema None Samples.types "buffer list" t
           [Samples.count; Samples.items] Samples.items eq_refl
           (dict_get_Some_elem_of _ _ _ Ht)).
  - injection Ht as <-. apply list_elem_of_In. simpl. auto.
  - apply list_elem_of_In. simpl. auto.
Defined.

(** X6.  In a model that [Model.__init__] returns, a function, function
    pointer or method has a return type exactly when its [returns] entry is
    present, not empty and not [void], and the return type is then the
    registry node of that name; so [return_conversion] never fails, and it
    is [None] exactly for the functions that return nothing. *)
Theorem return_type_is_set_unless_void data enabled_tags types k t returns f :
  Model.init data enabled_tags = Ok types → (k, t) ∈ types →
  (returns, f) ∈ functions t →
  option_list (return_type f) = return_reference returns
  ∧ is_Ok (FunctionReturns.return_conversion types f)
  ∧ (FunctionReturns.return_conversion types f = Ok None ↔
       return_reference returns = []).
Proof.
  intros Hinit Hin Hf.
  destruct (init_node _ _ _ _ _ Hinit Hin)
    as (types0 & v0 & _ & Hpass & _ & _ & _ & Hv & Hlink).
  destruct (link_functions _ _ _ _ _ Hlink Hf) as (f0 & Hf0 & Hflink).
  pose proof (construct_functions _ _ _ _ _ _ Hv Hf0) as Hnone.
  pose proof (function_link_return _ _ _ _ Hflink) as Hret.
  unfold FunctionReturns.return_conversion.
  assert (Hshape : return_reference returns = [] ∨ ∃ r, return_reference returns = [r]).
  { unfold return_reference. destruct returns as [r|]; [|by left].
    destruct (truthy_str r && negb (String.eqb r "void")); [right; by exists r | by left]. }
  destruct Hshape as [Hnil|[r Hr]].
  - rewrite Hnil in Hret |- *. rewrite Hret, Hnone. simpl. done.
  - rewrite Hr in Hret |- *. destruct Hret as [-> Hres].
    apply (link_pass_same_keys _ _ Hpass) in Hres as [t' Ht'].
    rewrite Ht'. simpl. split; [done|].
    destruct (String.eqb (category t') "object"); split; [done| |done|];
      split; intros [=].
Qed.

Lemma return_type_is_set_unless_void_witness :
  FunctionReturns.return_conversion Samples.types MoreSamples.on_done = Ok None.
Proof.
  destruct (dict_get "on done" Samples.types) as [t|] eqn:Ht; [|discriminate Ht].
  refine (proj2 (proj2 (proj2 (return_type_is_set_unless_void Samples.schema None
            Samples.types "on done" t None MoreSamples.on_done eq_refl
            (dict_get_Some_elem_of _ _ _ Ht) _))) eq_refl).
  injection Ht as <-. vm_compute. left.
Defined.

(** ** More on length pairing *)

Lemma index_by_is_Some key ds k :
  is_Some (index_by key ds !! k) ↔ ∃ d, d ∈ ds ∧ key d = Some k.
Proof.
  induction ds as [|d ds IH] using rev_ind.
  - unfold index_by. simpl. rewrite lookup_empty. split.
    + by intros [? ?].
    + by intros (d & ?%elem_of_nil & _).
  - rewrite index_by_snoc. setoid_rewrite elem_of_app.
    setoid_rewrite list_elem_of_singleton.
    destruct (key d) as [k'|] eqn:Hd.
    + rewrite lookup_insert. destruct (decide (k' = k)) as [->|Hne].
      * split; [|by eexists]. intros _. exists d. split; [by right | done].
      * rewrite IH. split.
        -- intros (d' & Hin & Hk). exists d'. split; [by left | done].
        -- intros (d' & [Hin| ->] & Hk); [by exists d' | congruence].
    + rewrite IH. split.
      * intros (d' & Hin & Hk). exists d'. split; [by left | done].
      * intros (d' & [Hin| ->] & Hk); [by exists d' | congruence].
Qed.

Lemma elem_of_pair_members ds m :
  m ∈ pair_members ds → m_data m ∈ ds.
Proof.
  intros [i (d & Hd & <- & _)%pair_members_lookup]%list_elem_of_lookup.
  apply list_elem_of_lookup. by exists i.
Qed.

Lemma pair_members_of_data ds d :
  d ∈ ds → ∃ m, m ∈ pair_members ds ∧ m_data m = d.
Proof.
  intros [i Hd]%list_elem_of_lookup.
  exists {| m_data := d; m_type := None;
            length_member := md_length d ≫= λ l, members_by_name ds !! l;
            length_of := members_by_length ds !! md_name d |}.
  split; [|done]. apply list_elem_of_lookup. exists i.
  apply pair_members_lookup. by exists d.
Qed.

(** When [length_of] is left unset. *)
Lemma length_of_None ds L :
  L ∈ pair_members ds →
  length_of L = None ↔
  Member.name L = "" ∨ ∀ A, A ∈ pair_members ds →
                            Member.length A ≠ Some (Member.name L).
Proof.
  intros [l (d & Hd & HL & _ & _ & Hlo)%pair_members_lookup]%list_elem_of_lookup.
  rewrite Hlo, members_by_length_index, eq_None_not_Some, index_by_is_Some.
  unfold Member.name, Member.length. rewrite HL.
  assert (Hkey : ∀ d', length_key d' = Some (md_name d) ↔
                       md_length d' = Some (md_name d) ∧ md_name d ≠ "").
  { intros d'. unfold length_key. destruct (md_length d') as [s|];
      [|split; [done | by intros [? _]]].
    destruct (truthy_str s) eqn:Hs.
    - apply truthy_str_true in Hs. split; [by intros [= <-] | by intros [-> _]].
    - destruct s; [|done]. split; [done|]. intros [[= Hs'] Hne]. by destruct Hne. }
  split.
  - intros Hno. destruct (decide (md_name d = "")) as [?|Hne]; [by left|]. right.
    intros A HA Hlen. apply Hno. exists (m_data A).
    split; [by apply elem_of_pair_members | by apply Hkey].
  - intros [Hempty|Hno] (d' & Hin & [Hlen Hne]%Hkey); [done|].
    destruct (pair_members_of_data _ _ Hin) as (A & HA & <-).
    by apply (Hno A HA).
Qed.

(** X7.  Pairing only ever points at siblings that declare the pairing: the
    member that [length_of] points at is in the container and names this
    member as its (non-empty) length, and the member that [length_member]
    points at is in the container and has the name this member gives as its
    length.  [length_member] is unset exactly when no member of the container
    has that name, which includes every member without a length. *)
Theorem pairing_points_at_declaring_siblings ds l L :
  pair_members ds !! l = Some L →
  (∀ i, length_of L = Some i →
        ∃ A, pair_members ds !! i = Some A
             ∧ Member.length A = Some (Member.name L) ∧ Member.name L ≠ "")
  ∧ (∀ j, length_member L = Some j →
          ∃ B, pair_members ds !! j = Some B
               ∧ Member.length L = Some (Member.name B))
  ∧ (length_member L = None ↔
       ∀ B, B ∈ pair_members ds → Member.length L ≠ Some (Member.name B)).
Proof.
  intros HL. split_and!.
  - intros i Hi. apply (length_of_spec ds l L i HL) in Hi as [(A & HA & Hlen & Hne) _].
    by exists A.
  - intros j Hj.
    apply (length_member_spec ds l L j HL) in Hj as (n & Hn & (B & HB & <-) & _).
    by exists B.
  - pose proof HL as (d & Hd & HdL & _ & Hlm & _)%pair_members_lookup.
    rewrite Hlm. unfold Member.length, Member.name. rewrite HdL.
    destruct (md_length d) as [n|]; simpl; [|split; [by intros _ B _ | done]].
    rewrite members_by_name_index, eq_None_not_Some, index_by_is_Some. split.
    + intros Hno B HB [= Hn]. apply Hno. exists (m_data B).
      split; [by apply elem_of_pair_members | by rewrite Hn].
    + intros Hno (d' & Hin & [= Hn]).
      destruct (pair_members_of_data _ _ Hin) as (B & HB & <-).
      apply (Hno B HB). by rewrite Hn.
Qed.

Lemma pairing_points_at_declaring_siblings_witness :
  ∃ A, pair_members Samples.shared_count !! 1 = Some A
       ∧ Member.length A = Some "count".
Proof.
  destruct (pair_members Samples.shared_count !! 2) as [L|] eqn:HL; [|discriminate HL].
  destruct (proj1 (pairing_points_at_declaring_siblings Samples.shared_count 2 L HL) 1)
    as (A & HA & Hlen & _).
  - injection HL as <-. reflexivity.
  - exists A. split; [done|]. injection HL as <-. exact Hlen.
Defined.

(** X8.  The members that [swift_members] keeps are exactly those that no
    member of the container names as its length (a member with the empty
    name is always kept); [swift_args] keeps the same arguments except those
    named [userdata].  So the count of an array never shows among the
    visible members, whichever array claims it. *)
Theorem visible_members_are_not_lengths ds return_type_ B :
  let ms := pair_members ds in
  let named_as_length :=
    Member.name B ≠ "" ∧ ∃ A, A ∈ ms ∧ Member.length A = Some (Member.name B) in
  (B ∈ swift_members ms ↔ B ∈ ms ∧ ¬ named_as_length)
  ∧ (B ∈ FunctionPointerType.swift_args {| args := ms; return_type := return_type_ |} ↔
       B ∈ ms ∧ ¬ named_as_length ∧ Member.name B ≠ "userdata").
Proof.
  intros ms named_as_length.
  assert (Hno : B ∈ ms → length_of B = None ↔ ¬ named_as_length).
  { intros HB. rewrite (length_of_None ds B HB). unfold named_as_length. split.
    - intros [Hempty|Hall] [Hne (A & HA & Hlen)]; [done | by apply (Hall A HA)].
    - intros Hnot. destruct (decide (Member.name B = "")) as [?|Hne]; [by left|].
      right. intros A HA Hlen. apply Hnot. split; [done | by exists A]. }
  split.
  - unfold swift_members. rewrite list_elem_of_filter. split.
    + intros [Hlo HB]. split; [done | by apply Hno].
    + intros [HB Hnot]. split; [by apply Hno | done].
  - unfold FunctionPointerType.swift_args. simpl. rewrite list_elem_of_filter. split.
    + intros [[Hlo Hu] HB]. split_and!; [done | by apply Hno | done].
    + intros (HB & Hnot & Hu). split; [|done]. split; [by apply Hno | done].
Qed.

Lemma visible_members_are_not_lengths_witness :
  ∃ B, pair_members Samples.shared_count !! 2 = Some B
       ∧ B ∉ swift_members (pair_members Samples.shared_count).
Proof.
  destruct (pair_members Samples.shared_count !! 2) as [B|] eqn:HB; [|discriminate HB].
  exists B. split; [done|].
  intros [_ Hnot]%(proj1 (visible_members_are_not_lengths Samples.shared_count None B)).
  apply Hnot. injection HB as <-. split; [discriminate|].
  destruct (pair_members Samples.shared_count !! 0) as [A|] eqn:HA; [|discriminate HA].
  exists A. split; [by eapply list_elem_of_lookup_2|].
  injection HA as <-. reflexivity.
Defined.

(** ** Conversion on a finished model *)

Lemma declared_containers_paired enabled_tags t ms :
  ms ∈ declared_containers enabled_tags t → ∃ ds, ms = pair_members ds.
Proof.
  unfold declared_containers.
  destruct (t_variant t); try by intros ?%elem_of_nil.
  - intros ->%list_elem_of_singleton. eauto.
  - intros ->%list_elem_of_singleton. eauto.
  - intros ->%list_elem_of_singleton. eauto.
  - intros (m & -> & _)%list_elem_of_fmap. eauto.
Qed.

(** In a finished model, [length_of] of a member points into its container. *)
Lemma init_length_of_in_range data enabled_tags types k t ms m i :
  Model.init data enabled_tags = Ok types → (k, t) ∈ types →
  ms ∈ containers t → m ∈ ms → length_of m = Some i →
  ∃ a, ms !! i = Some a.
Proof.
  intros Hinit Hin Hms Hm Hi.
  rewrite (init_containers _ _ _ _ _ Hinit Hin) in Hms.
  apply list_elem_of_fmap in Hms as (ms0 & -> & [ds ->]%declared_containers_paired).
  apply list_elem_of_fmap in Hm as (m0 & -> & [l Hl]%list_elem_of_lookup).
  simpl in Hi.
  apply (length_of_spec ds l m0 i Hl) in Hi as [(A & HA & _) _].
  exists (linked A). by rewrite list_lookup_fmap, HA.
Qed.

Section conversion_on_models.
Context {names : nameutils}.

Lemma conversion_is_Ok types ms m :
  (∀ i, length_of m = Some i →
        ∃ a, ms !! i = Some a ∧ is_Ok (Member.type types a)) →
  is_Ok (Member.type types m) →
  is_Ok (Member.conversion types ms m)
  ∧ (is_Some (length_of m) →
       Member.conversion types ms m = Ok buffer_length_conversion
       ∨ Member.conversion types ms m = Ok array_length_conversion).
Proof.
  intros Hlo [t Ht]. unfold Member.conversion.
  destruct (length_of m) as [i|].
  - destruct (Hlo i eq_refl) as (a & Ha & [ta Hta]).
    rewrite Ha. simpl. rewrite Hta. simpl.
    destruct (String.eqb (t_name ta) "void"); split; eauto.
  - split; [|by intros [? ?]].
    rewrite Ht. simpl. repeat case_match; eauto.
Qed.

(** X9.  In a model that [Model.__init__] returns, selecting the conversion
    of a member or argument never fails, and a member that is the length of
    a sibling converts by one of the two length strategies, whatever its own
    name, type and annotation are. *)
Theorem conversion_is_defined_on_a_model data enabled_tags types k t ms m :
  Model.init data enabled_tags = Ok types → (k, t) ∈ types →
  ms ∈ containers t → m ∈ ms →
  is_Ok (Member.conversion types ms m)
  ∧ (is_Some (length_of m) →
       Member.conversion types ms m = Ok buffer_length_conversion
       ∨ Member.conversion types ms m = Ok array_length_conversion).
Proof.
  intros Hinit Hin Hms Hm. apply conversion_is_Ok.
  - intros i Hi.
    destruct (init_length_of_in_range _ _ _ _ _ _ _ _ Hinit Hin Hms Hm Hi) as [a Ha].
    exists a. split; [done|].
    destruct (init_member_type _ _ _ _ _ _ a Hinit Hin Hms) as (ta & Hta & _);
      [by eapply list_elem_of_lookup_2 | by eexists].
  - destruct (init_member_type _ _ _ _ _ _ m Hinit Hin Hms Hm) as (tm & Htm & _).
    by eexists.
Qed.

End conversion_on_models.

Lemma conversion_is_defined_on_a_model_witness :
  Member.conversion (names := Samples.names) Samples.types
    [Samples.count; Samples.items] Samples.count = Ok array_length_conversion.
Proof.
  destruct (dict_get "buffer list" Samples.types) as [t|] eqn:Ht; [|discriminate Ht].
  destruct (proj2 (conversion_is_defined_on_a_model (names := Samples.names)
                     Samples.schema None Samples.types "buffer list" t
                     [Samples.count; Samples.items] Samples.count eq_refl
                     (dict_get_Some_elem_of _ _ _ Ht)
                     ltac:(injection Ht as <-; vm_compute; left)
                     ltac:(vm_compute; left))
                  (mk_is_Some _ _ eq_refl)) as [Hb|Ha].
  - discriminate Hb.
  - exact Ha.
Defined.

(** ** Signatures and strategies of single members *)

Lemma endswith_app_r p base s : endswith p s = true → endswith p (base +:+ s) = true.
Proof.
  intros Hs. induction base as [|c base IH]; [done|].
  change (String c base +:+ s) with (String c (base +:+ s)).
  cbn [endswith]. rewrite IH. apply orb_true_r.
Qed.

Section member_facts.
Context {names : nameutils}.

(** X10.  The native signature of a member that is annotated as a pointer
    ([const*] or [*]) or whose type is an object ends with [!], the mark of
    an implicitly unwrapped value. *)
Theorem c_type_of_pointers_and_objects_is_unwrapped types m t s :
  Member.type types m = Ok t →
  Member.annotation_is "const*" m = true ∨ Member.annotation_is "*" m = true
  ∨ category t = "object" →
  Member.c_type types m = Ok s →
  endswith "!" s = true.
Proof.
  intros Ht Hcase. unfold Member.c_type. rewrite Ht. simpl.
  assert (Hwrap : ∀ pre post r,
            endswith "!" post = true →
            (Type_.c_name t ≫= λ n, mret (pre +:+ n +:+ post)) = Ok r →
            endswith "!" r = true).
  { intros pre post r Hpost (n & _ & [= <-])%bind_Ok.
    by do 2 apply endswith_app_r. }
  destruct (Member.annotation_is "const*" m).
  { destruct (String.eqb (t_name t) "void"); [by intros [= <-]|].
    destruct (String.eqb (category t) "object"); by apply Hwrap. }
  destruct (Member.annotation_is "*" m).
  { destruct (String.eqb (t_name t) "void"); [by intros [= <-]|]. by apply Hwrap. }
  destruct Hcase as [?|[?|Hobj]]; [done..|].
  rewrite Hobj. simpl. apply (Hwrap "" "!"). done.
Qed.

(** X11.  A member that is not the length of a sibling, is not named
    [userdata], and is a [const*] to [char] converts as a string, optional
    or not as the member is, whether or not it names a length; its signature
    is [String], preceded by [@escaping ] if the category of the type is
    [function pointer], and followed by [?] if the member is optional. *)
Theorem char_pointer_is_a_string types members m t :
  length_of m = None →
  Member.name m ≠ "userdata" →
  Member.type types m = Ok t →
  t_name t = "char" →
  Member.annotation m = Some "const*" →
  Member.conversion types members m =
    Ok (if Member.optional m then optional_string_conversion else string_conversion)
  ∧ Member.swift_type types m =
      Ok ((if decide (category t = "function pointer") then "@escaping " else "")
          +:+ "String" +:+ (if Member.optional m then "?" else "")).
Proof.
  intros Hlo Hname Ht Hchar Hann. split.
  - unfold Member.conversion. rewrite Hlo.
    apply String.eqb_neq in Hname. rewrite Hname, Ht. simpl.
    unfold Member.annotation_is. by rewrite Hchar, Hann.
  - unfold Member.swift_type. rewrite Ht. simpl.
    unfold Member.annotation_is. rewrite Hchar, Hann. simpl.
    unfold Member.decorate.
    destruct (decide (category t = "function pointer")) as [Hcat|Hcat].
    + rewrite Hcat. simpl. by destruct (Member.optional m).
    + apply String.eqb_neq in Hcat. rewrite Hcat.
      by destruct (Member.optional m).
Qed.

(** X12.  For a member that is not the length of a sibling, the conversion
    is a callback's own strategy exactly when the member is not named
    [userdata], carries neither pointer annotation, its type is a function
    or function pointer with an argument named [userdata] and of a category
    other than enum, bitmask, structure and object; the strategy is then
    named after the type. *)
Theorem conversion_is_a_callback_iff types members m t n :
  length_of m = None →
  Member.type types m = Ok t →
  Member.conversion types members m = Ok (Conversion_ n) ↔
  n = Member.callback_function_name t
  ∧ Member.name m ≠ "userdata"
  ∧ Member.annotation m ≠ Some "const*"
  ∧ Member.annotation m ≠ Some "*"
  ∧ (category t ∉ ["enum"; "bitmask"; "structure"; "object"])
  ∧ ∃ f, as_function t = Some f ∧ FunctionPointerType.is_callback f = true.
Proof.
  intros Hlo Ht. unfold Member.conversion. rewrite Hlo.
  assert (Hann : ∀ a, Member.annotation_is a m = true ↔ Member.annotation m = Some a).
  { intros a. unfold Member.annotation_is.
    destruct (Member.annotation m) as [a'|]; [|done].
    rewrite String.eqb_eq. split; [by intros -> | by intros [= ->]]. }
  assert (Hcats : category t ∉ ["enum"; "bitmask"; "structure"; "object"] ↔
            category t ≠ "enum" ∧ category t ≠ "bitmask"
            ∧ category t ≠ "structure" ∧ category t ≠ "object").
  { rewrite !not_elem_of_cons. split; [tauto|]. intros (?&?&?&?).
    split_and!; try done. by intros ?%elem_of_nil. }
  rewrite Hcats. clear Hcats.
  destruct (String.eqb_spec (Member.name m) "userdata") as [Hu|Hu].
  { split; [done | tauto]. }
  rewrite Ht. simpl.
  destruct (Member.annotation_is "const*" m) eqn:Hc.
  { apply Hann in Hc. rewrite andb_true_r. simpl.
    split; [|tauto]. repeat case_match; done. }
  destruct (Member.annotation_is "*" m) eqn:Hp.
  { apply Hann in Hp. rewrite andb_false_r. simpl. split; [done | tauto]. }
  assert (Hc' : Member.annotation m ≠ Some "const*")
    by (intros ?%Hann; congruence).
  assert (Hp' : Member.annotation m ≠ Some "*")
    by (intros ?%Hann; congruence).
  rewrite andb_false_r. simpl.
  destruct (String.eqb_spec (category t) "enum") as [He|He]; [split; [done | tauto]|].
  destruct (String.eqb_spec (category t) "bitmask") as [Hb|Hb]; [split; [done | tauto]|].
  destruct (String.eqb_spec (category t) "structure") as [Hs|Hs];
    [split; [done | tauto]|].
  destruct (String.eqb_spec (category t) "object") as [Ho|Ho].
  { split; [by destruct (Member.optional m) | tauto]. }
  destruct (as_function t) as [f|].
  - unfold FunctionPointerType.is_callback.
    destruct (Member.is_callback f) eqn:Hcb.
    + split.
      * intros [= <-]. split_and!; try done. by exists f.
      * by intros (-> & _).
    + split; [done|]. intros (_ & _ & _ & _ & _ & f' & [= <-] & Hf'). congruence.
  - split; [done|]. by intros (_ & _ & _ & _ & _ & f' & [=] & _).
Qed.

End member_facts.

Lemma c_type_of_pointers_and_objects_is_unwrapped_witness :
  endswith "!" "UnsafeMutablePointer<UInt32>!" = true.
Proof.
  apply (c_type_of_pointers_and_objects_is_unwrapped (names := Samples.names)
           Samples.types Samples.out
           {| t_name := "uint32_t"; t_data := Samples.native; t_variant := VNative |});
    [reflexivity | right; left; reflexivity | reflexivity].
Defined.

Lemma char_pointer_is_a_string_witness :
  Member.conversion (names := Samples.names) MoreSamples.char_types []
    MoreSamples.label = Ok optional_string_conversion
  ∧ Member.swift_type (names := Samples.names) MoreSamples.char_types
      MoreSamples.label = Ok "String?"
  ∧ Member.swift_type (names := Samples.names) MoreSamples.char_callback_types
      MoreSamples.label = Ok "@escaping String?".
Proof.
  pose proof (char_pointer_is_a_string (names := Samples.names)
                MoreSamples.char_types [] MoreSamples.label
                {| t_name := "char"; t_data := Samples.native; t_variant := VNative |}
                eq_refl ltac:(discriminate) eq_refl eq_refl eq_refl) as [Hconv Hsig].
  pose proof (char_pointer_is_a_string (names := Samples.names)
                MoreSamples.char_callback_types [] MoreSamples.label
                {| t_name := "char"; t_data := Samples.function_pointer [] None;
                   t_variant := VFunctionPointer (FunctionPointerType.init (Some [])) |}
                eq_refl ltac:(discriminate) eq_refl eq_refl eq_refl) as [_ Hsig'].
  split; [exact Hconv|]. split; [exact Hsig | exact Hsig'].
Defined.

Lemma conversion_is_a_callback_iff_witness :
  Member.conversion (names := Samples.names) Samples.types [] MoreSamples.callback
  = Ok (Conversion_ "onDone").
Proof.
  destruct (dict_get "on done" Samples.types) as [t|] eqn:Ht; [|discriminate Ht].
  injection Ht as <-.
  eapply (conversion_is_a_callback_iff (names := Samples.names) Samples.types []
            MoreSamples.callback _ "onDone" eq_refl).
  - reflexivity.
  - split; [reflexivity|]. split; [discriminate|]. split; [discriminate|].
    split; [discriminate|]. split.
    + intros Hin. apply list_elem_of_In in Hin. simpl in Hin.
      destruct Hin as [H|[H|[H|[H|[]]]]]; discriminate H.
    + eexists. split; reflexivity.
Defined.

(** ** Native types and their literals *)

Lemma table_get_is_Ok k table : is_Ok (table_get k table) ↔ k ∈ table.*1.
Proof.
  induction table as [|[k' v] table IH]; simpl.
  - split; [by intros [? ?] | by intros ?%elem_of_nil].
  - rewrite elem_of_cons. destruct (String.eqb_spec k' k) as [->|Hne].
    + split; [by left | by eexists].
    + rewrite IH. split; [by right|]. intros [?|?]; [congruence | done].
Qed.

Lemma table_get_Err k table e : table_get k table = Err e → e = KeyError.
Proof.
  induction table as [|[k' v] table IH]; simpl; [by intros [= <-]|].
  by destruct (String.eqb k' k).
Qed.

Section native_facts.
Context {names : nameutils}.

(** X13.  The names of a native type are defined exactly for the fifteen
    primitive names of the table: for any other name [c_name] and
    [swift_name] raise [KeyError], although the model accepts the entry.  A
    type of any other class always has both names. *)
Theorem native_names_are_those_of_the_table t :
  (t_variant t = VNative →
     (is_Ok (Type_.c_name t) ↔ t_name t ∈ native_names.*1)
     ∧ Type_.swift_name t = Type_.c_name t
     ∧ ∀ e, Type_.c_name t = Err e → e = KeyError)
  ∧ (t_variant t ≠ VNative →
       is_Ok (Type_.c_name t) ∧ is_Ok (Type_.swift_name t)).
Proof.
  unfold Type_.swift_name, Type_.c_name. split.
  - intros ->. split_and!; [apply table_get_is_Ok | done | apply table_get_Err].
  - intros Hv. destruct (t_variant t); by eauto.
Qed.

End native_facts.

Lemma native_names_are_those_of_the_table_witness :
  let t := {| t_name := "uint"; t_data := Samples.native; t_variant := VNative |} in
  is_Ok (Model.init [("uint", Samples.native)] None)
  ∧ Type_.c_name (names := Samples.names) t = Err KeyError.
Proof.
  intros t. split; [by eexists|].
  destruct (native_names_are_those_of_the_table (names := Samples.names) t)
    as [Hnative _].
  destruct (Hnative eq_refl) as (Hiff & _ & Herr).
  destruct (Type_.c_name (names := Samples.names) t) as [n|e] eqn:Hn.
  - assert (Hin : t_name t ∈ native_names.*1) by (apply Hiff; by eexists).
    apply list_elem_of_In in Hin. vm_compute in Hin.
    repeat (destruct Hin as [Hin|Hin]; [discriminate Hin|]). destruct Hin.
  - by rewrite (Herr e eq_refl).
Defined.

(** *** Stripping a suffix *)

Lemma string_app_cons c (s1 s2 : string) : String c s1 +:+ s2 = String c (s1 +:+ s2).
Proof. reflexivity. Qed.

Lemma string_app_assoc (s1 s2 s3 : string) : (s1 +:+ s2) +:+ s3 = s1 +:+ (s2 +:+ s3).
Proof. induction s1 as [|c s1 IH]; [done|]. by rewrite !string_app_cons, IH. Qed.

Lemma string_app_nil_r (s : string) : s +:+ "" = s.
Proof. induction s as [|c s IH]; [done|]. by rewrite string_app_cons, IH. Qed.

Lemma rev_app_spec s1 s2 : String.rev_app s1 s2 = String.rev s1 +:+ s2.
Proof.
  unfold String.rev. revert s2. induction s1 as [|c s1 IH]; intros s2; [done|].
  cbn [String.rev_app].
  by rewrite (IH (String c s2)), (IH (String c "")), string_app_assoc.
Qed.

Lemma rev_cons c s : String.rev (String c s) = String.rev s +:+ String c "".
Proof. unfold String.rev at 1. simpl. apply rev_app_spec. Qed.

Lemma rev_snoc s c : String.rev (s +:+ String c "") = String c (String.rev s).
Proof.
  induction s as [|a s IH]; [done|].
  by rewrite string_app_cons, !rev_cons, IH.
Qed.

Lemma rev_involutive s : String.rev (String.rev s) = s.
Proof.
  induction s as [|c s IH]; [done|]. by rewrite rev_cons, rev_snoc, IH.
Qed.

Lemma string_snoc_ind (P : string → Prop) :
  P "" → (∀ s c, P s → P (s +:+ String c "")) → ∀ s, P s.
Proof.
  intros Hnil Hsnoc s. rewrite <- (rev_involutive s).
  induction (String.rev s) as [|c s' IH]; [done|].
  rewrite rev_cons. by apply Hsnoc.
Qed.

Lemma rstrip_snoc p s c :
  rstrip p (s +:+ String c "") = if p c then rstrip p s else s +:+ String c "".
Proof.
  unfold rstrip. rewrite rev_snoc. simpl. destruct (p c); [done|].
  by rewrite rev_cons, rev_involutive.
Qed.

Lemma snoc_inj s1 s2 (c1 c2 : ascii) :
  s1 +:+ String c1 "" = s2 +:+ String c2 "" → s1 = s2 ∧ c1 = c2.
Proof.
  revert s2. induction s1 as [|a s1 IH]; intros [|b s2];
    rewrite ?string_app_cons.
  - by intros [= ->].
  - destruct s2; rewrite ?string_app_cons; intros [=].
  - destruct s1; rewrite ?string_app_cons; intros [=].
  - intros [= -> Heq]. destruct (IH _ Heq) as [-> ->]. done.
Qed.

Lemma contains_char_app c s1 s2 :
  contains_char c (s1 +:+ s2) = contains_char c s1 || contains_char c s2.
Proof.
  induction s1 as [|a s1 IH]; [done|].
  rewrite string_app_cons. cbn [contains_char]. by rewrite IH, orb_assoc.
Qed.

(** What [rstrip] removes and what it leaves. *)
Lemma rstrip_spec p s :
  ∃ tail, s = rstrip p s +:+ tail
          ∧ (∀ c, contains_char c tail = true → p c = true)
          ∧ (∀ r c, rstrip p s = r +:+ String c "" → p c = false).
Proof.
  induction s as [|s c (tail & Hs & Htail & Hlast)] using string_snoc_ind.
  - exists "". split_and!; [done | done |].
    intros [|a r] c; rewrite ?string_app_cons; intros [=].
  - rewrite rstrip_snoc. destruct (p c) eqn:Hc.
    + exists (tail +:+ String c ""). split_and!.
      * by rewrite <- string_app_assoc, <- Hs.
      * intros c'. rewrite contains_char_app. simpl. rewrite orb_false_r.
        intros [?|Heq]%orb_true_iff; [by apply Htail|].
        by apply Ascii.eqb_eq in Heq as <-.
      * done.
    + exists "". split_and!; [by rewrite string_app_nil_r | done |].
      intros r c' [_ <-]%snoc_inj. done.
Qed.

Lemma endswith_char c s :
  endswith (String c "") s = true → ∃ r, s = r +:+ String c "".
Proof.
  induction s as [|a s IH]; [done|]. cbn [endswith].
  intros [Heq|Hs]%orb_true_iff.
  - apply String.eqb_eq in Heq as ->. by exists "".
  - destruct (IH Hs) as [r ->]. by exists (String a r).
Qed.

Section literal_facts.
Context {names : nameutils}.

(** X14.  A string literal rendered through the native type [float], other
    than [NAN] and the [WGPU_] constants, loses exactly its trailing [f]
    characters: what is left is a prefix of the literal that does not end
    with [f], and what is dropped consists of [f] only. *)
Theorem float_literal_loses_its_suffix fuel types t s :
  t_variant t = VNative → t_name t = "float" →
  startswith "WGPU_" s = false → s ≠ "NAN" →
  ∃ r dropped,
    get_swift_value (S fuel) types t (LStr s) = Ok r
    ∧ s = r +:+ dropped
    ∧ (∀ c, contains_char c dropped = true → c = "f"%char)
    ∧ endswith "f" r = false.
Proof.
  intros Hv Hname Hconst Hnan. cbn [get_swift_value].
  apply String.eqb_neq in Hnan. rewrite Hv, Hconst, Hnan, Hname. simpl.
  destruct (rstrip_spec (Ascii.eqb "f") s) as (dropped & Hs & Hdropped & Hlast).
  exists (rstrip (Ascii.eqb "f") s), dropped. split_and!; [done | done | |].
  - intros c Hc. apply Hdropped in Hc. by apply Ascii.eqb_eq in Hc.
  - destruct (endswith "f" (rstrip (Ascii.eqb "f") s)) eqn:Hend; [|done].
    apply endswith_char in Hend as [r Hr]. discriminate (Hlast r _ Hr).
Qed.

End literal_facts.

Lemma float_literal_loses_its_suffix_witness :
  get_swift_value (names := Samples.names) 1 Samples.types
    {| t_name := "float"; t_data := Samples.native; t_variant := VNative |}
    (LStr "1.0f") = Ok "1.0".
Proof.
  destruct (float_literal_loses_its_suffix (names := Samples.names) 0 Samples.types
              {| t_name := "float"; t_data := Samples.native; t_variant := VNative |}
              "1.0f" eq_refl eq_refl eq_refl ltac:(discriminate))
    as (r & dropped & Hr & _).
  rewrite Hr. vm_compute in Hr. symmetry. exact Hr.
Defined.

(** ** Enum literals *)

Section enum_literal_facts.
Context {names : nameutils}.

(** X15.  For a value of an enum or bitmask that [EnumType.__init__] built,
    rendering the value's name as a literal of the type gives a dot followed
    by the case name, and the value's Swift name is that same case name
    passed through [swift_safe]: both use the enum's one prefix decision. *)
Theorem enum_literal_names_the_declared_case fuel types t data enabled_tags e v :
  EnumType.init data enabled_tags = Ok e →
  t_variant t = VEnum e ∨ t_variant t = VBitmask e →
  v ∈ values e →
  ∃ case_name,
    get_swift_value (S fuel) types t (LStr (EnumValue.name v)) = Ok ("." +:+ case_name)
    ∧ EnumValueNames.swift_name v = swift_safe case_name.
Proof.
  intros [_ Hvs]%enum_init_Ok Ht Hv.
  rewrite Hvs in Hv. apply list_elem_of_fmap in Hv as (d & -> & _).
  unfold EnumValueNames.swift_name, EnumValue.name. simpl.
  exists (camel_case (lower (if requires_prefix e then "type " +:+ evd_name d
                             else evd_name d))).
  split; [|done]. cbn [get_swift_value]. by destruct Ht as [-> | ->].
Qed.

End enum_literal_facts.

Lemma enum_literal_names_the_declared_case_witness :
  ∃ case_name,
    get_swift_value (names := Samples.names) 1 Samples.types
      {| t_name := "multisample"; t_data := Samples.multisample;
         t_variant := VEnum {| requires_prefix := true;
                               values := [ {| ev_data := Samples.value "1x" 0;
                                              ev_requires_prefix := true |};
                                           {| ev_data := Samples.value "2x" 1;
                                              ev_requires_prefix := true |} ] |} |}
      (LStr "1x") = Ok ("." +:+ case_name)
    ∧ case_name = "type1x".
Proof.
  destruct (enum_literal_names_the_declared_case (names := Samples.names) 0
              Samples.types
              {| t_name := "multisample"; t_data := Samples.multisample;
                 t_variant := VEnum {| requires_prefix := true;
                                       values := [ {| ev_data := Samples.value "1x" 0;
                                                      ev_requires_prefix := true |};
                                                   {| ev_data := Samples.value "2x" 1;
                                                      ev_requires_prefix := true |} ] |} |}
              Samples.multisample None _
              {| ev_data := Samples.value "1x" 0; ev_requires_prefix := true |}
              eq_refl (or_introl eq_refl) ltac:(left))
    as (case_name & Hlit & Hname).
  exists case_name. split; [exact Hlit|].
  vm_compute in Hname. symmetry. exact Hname.
Defined.

(** ** More on default values *)

Section more_default_facts.
Context {names : nameutils}.

(** X16.  For a member that is not optional and has no zero-defaulted
    length, a truthy default that is not a string (a non-zero integer or
    [true]) raises when the member's type is an enum or bitmask ([TypeError]
    if the enum requires a prefix, [AttributeError] if not) or a structure
    ([AttributeError]); through any other type it renders as [str] of the
    literal. *)
Theorem non_string_default_raises_on_enums_and_structures
    fuel types members m d t :
  Member.optional m = false →
  length_defaults_to_zero members m = false →
  Member.default m = Some d →
  truthy d = true →
  (∀ s, d ≠ LStr s) →
  Member.type types m = Ok t →
  default_swift_value (S fuel) types members m =
    match t_variant t with
    | VEnum e | VBitmask e =>
        Err (if requires_prefix e then TypeError else AttributeError)
    | VStructure _ => Err AttributeError
    | _ => Ok (Some (str d))
    end.
Proof.
  intros Hopt Hlen Hd Htruthy Hstr Ht.
  unfold default_swift_value, default_swift_value_body.
  rewrite Hopt, Hlen, Hd, Htruthy, Ht. simpl.
  destruct d as [z|s|b]; [| by destruct (Hstr s) |];
    by destruct (t_variant t).
Qed.

(** X17.  A structure all of whose visible members are optional or are
    arrays whose length member defaults to zero has a default initializer,
    found without looking at any member's type: each such member defaults to
    [nil] or to the empty collection.  In particular a structure without
    members has one. *)
Theorem optional_and_counted_members_give_a_default_initializer
    fuel types members :
  (∀ m, m ∈ swift_members members →
        Member.optional m = true ∨ length_defaults_to_zero members m = true) →
  has_default_swift_initializer (S fuel) types members = Ok true
  ∧ ∀ m, m ∈ swift_members members →
      default_swift_value fuel types members m =
        Ok (Some (if Member.optional m then "nil" else "[]")).
Proof.
  intros Hall.
  assert (Hdef : ∀ m, m ∈ swift_members members →
            default_swift_value fuel types members m =
              Ok (Some (if Member.optional m then "nil" else "[]"))).
  { intros m Hm. unfold default_swift_value, default_swift_value_body.
    destruct (Member.optional m) eqn:Hopt; [done|].
    destruct (Hall m Hm) as [?|Hlen]; [congruence|]. by rewrite Hlen. }
  split; [|done].
  rewrite has_default_swift_initializer_S. apply all_true, Forall_forall.
  intros m Hm. rewrite (Hdef m Hm). simpl. by destruct (Member.optional m).
Qed.

End more_default_facts.

Lemma non_string_default_raises_on_enums_and_structures_witness :
  default_swift_value (names := Samples.names) 1 Samples.types [] MoreSamples.level
  = Err TypeError.
Proof.
  destruct (dict_get "multisample" Samples.types) as [t|] eqn:Ht; [|discriminate Ht].
  injection Ht as <-.
  exact (non_string_default_raises_on_enums_and_structures (names := Samples.names)
           0 Samples.types [] MoreSamples.level (LInt 1) _
           eq_refl eq_refl eq_refl eq_refl ltac:(discriminate) eq_refl).
Defined.

Lemma optional_and_counted_members_give_a_default_initializer_witness :
  has_default_swift_initializer (names := Samples.names) 1 Samples.types
    [Samples.count; Samples.items] = Ok true.
Proof.
  apply (optional_and_counted_members_give_a_default_initializer
           (names := Samples.names) 0 Samples.types [Samples.count; Samples.items]).
  intros m Hm. apply list_elem_of_In in Hm. vm_compute in Hm.
  destruct Hm as [<-|[]]. right. reflexivity.
Defined.

(** ** Methods *)

Lemma startswith_slice p s :
  startswith p s = true → s = p +:+ slice_from (String.length p) s.
Proof.
  unfold startswith. revert s. induction p as [|a p IH]; intros s; [done|].
  destruct s as [|b s]; [done|]. simpl.
  destruct (ascii_dec a b) as [->|]; [|done].
  intros Hp. rewrite string_app_cons. f_equal. by apply IH.
Qed.

Section method_facts.
Context {names : nameutils}.

(** X18.  A method is a getter only if it has a return type, no arguments
    and a name that starts with [get ]; its Swift function name is then made
    from the rest of the name, and the Swift function name of any other
    method is made from the whole name. *)
Theorem getter_is_named_without_get mt :
  (Method.is_getter mt = true →
     ∃ rest, MethodType_.name mt = "get " +:+ rest
             ∧ Method.swift_function_name mt = camel_case (lower rest)
             ∧ args (mt_body mt) = []
             ∧ is_Some (return_type (mt_body mt)))
  ∧ (Method.is_getter mt = false →
       Method.swift_function_name mt = camel_case (lower (MethodType_.name mt))).
Proof.
  unfold Method.swift_function_name. cbv zeta. split.
  - intros Hg. rewrite Hg. unfold Method.is_getter in Hg.
    destruct (return_type (mt_body mt)) as [r|]; [|done].
    destruct (args (mt_body mt)); [|done].
    exists (slice_from 4 (MethodType_.name mt)). split_and!; [|done..].
    by apply (startswith_slice "get ").
  - by intros ->.
Qed.

End method_facts.

Lemma getter_is_named_without_get_witness :
  Method.is_getter MoreSamples.get_limits = true
  ∧ ∃ rest, MethodType_.name MoreSamples.get_limits = "get " +:+ rest
            ∧ Method.swift_function_name (names := Samples.names)
                MoreSamples.get_limits = Samples.camel (lower rest).
Proof.
  split; [reflexivity|].
  destruct (proj1 (getter_is_named_without_get (names := Samples.names)
                     MoreSamples.get_limits) eq_refl)
    as (rest & Hname & Hswift & _).
  exists rest. split; [exact Hname | exact Hswift].
Defined.

(** ** Queries by category *)

Lemma class_matches_category t :
  class_matches t ↔ category t = class_category (t_variant t).
Proof. unfold class_matches, class_category. by destruct (t_variant t). Qed.

(** X19.  In a model that [Model.__init__] returns, [types_by_category]
    yields exactly the nodes of the registry whose class is the one that the
    category selects: asking for ["structure"] gives the structure types and
    nothing else. *)
Theorem types_by_category_selects_the_class data enabled_tags types c t :
  Model.init data enabled_tags = Ok types →
  t ∈ Model.types_by_category types c ↔
  (t_name t, t) ∈ types ∧ class_category (t_variant t) = c.
Proof.
  intros Hinit. unfold Model.types_by_category.
  rewrite list_elem_of_filter, list_elem_of_fmap.
  assert (Hnode : ∀ k, (k, t) ∈ types →
            t_name t = k ∧ category t = class_category (t_variant t)).
  { intros k Hin.
    destruct (init_node _ _ _ _ _ Hinit Hin)
      as (types0 & v0 & _ & _ & _ & _ & _ & Hv & Hlink).
    destruct (link_Ok_fields _ _ _ Hlink) as [Hname _]. split; [done|].
    apply class_matches_category.
    eapply link_class_matches; [done|]. by eapply construct_class_matches. }
  split.
  - intros [Hc ([k t'] & -> & Hin)]. simpl in *.
    destruct (Hnode k Hin) as [-> Hcat]. split; [done | congruence].
  - intros [Hin Hc]. destruct (Hnode _ Hin) as [_ Hcat].
    split; [congruence|]. by exists (t_name t, t).
Qed.

Lemma types_by_category_selects_the_class_witness :
  ∃ t, dict_get "empty" Samples.types = Some t
       ∧ t ∈ Model.types_by_category Samples.types "structure".
Proof.
  destruct (dict_get "empty" Samples.types) as [t|] eqn:Ht; [|discriminate Ht].
  exists t. split; [done|].
  apply (types_by_category_selects_the_class Samples.schema None Samples.types
           "structure" t eq_refl).
  pose proof (dict_get_Some_elem_of _ _ _ Ht) as Hin.
  injection Ht as <-. split; [exact Hin | reflexivity].
Defined.

(** ** Target names *)

Section target_facts.
Context {names : nameutils}.

(** X20.  In a model that [Model.__init__] returns, the target name of a
    member is always defined: it is the member's own Swift name unless the
    member is the length of a sibling, and then it is the Swift name of a
    member of the same container that names this member as its length. *)
Theorem target_name_is_the_array_of_a_length data enabled_tags types k t ms m :
  Model.init data enabled_tags = Ok types → (k, t) ∈ types →
  ms ∈ containers t → m ∈ ms →
  ∃ a, MemberTarget.target_swift_name ms m = Ok (Member.swift_name a)
       ∧ (length_of m = None → a = m)
       ∧ (is_Some (length_of m) →
            a ∈ ms ∧ Member.length a = Some (Member.name m)).
Proof.
  intros Hinit Hin Hms Hm. unfold MemberTarget.target_swift_name.
  destruct (length_of m) as [i|] eqn:Hi.
  - rewrite (init_containers _ _ _ _ _ Hinit Hin) in Hms.
    apply list_elem_of_fmap in Hms as (ms0 & -> & [ds ->]%declared_containers_paired).
    apply list_elem_of_fmap in Hm as (m0 & -> & [l Hl]%list_elem_of_lookup).
    simpl in Hi.
    apply (length_of_spec ds l m0 i Hl) in Hi as [(A & HA & Hlen & _) _].
    exists (linked A). rewrite list_lookup_fmap, HA. simpl.
    split_and!; [done | done |]. intros _. split; [|done].
    apply list_elem_of_fmap. exists A. split; [done|].
    by eapply list_elem_of_lookup_2.
  - exists m. split_and!; [done | done | by intros [? ?]].
Qed.

End target_facts.

Lemma target_name_is_the_array_of_a_length_witness :
  ∃ a, MemberTarget.target_swift_name (names := Samples.names)
         [Samples.count; Samples.items] Samples.count
         = Ok (Member.swift_name (names := Samples.names) a)
       ∧ a ∈ [Samples.count; Samples.items]
       ∧ Member.length a = Some "count".
Proof.
  destruct (dict_get "buffer list" Samples.types) as [t|] eqn:Ht; [|discriminate Ht].
  destruct (target_name_is_the_array_of_a_length (names := Samples.names)
              Samples.schema None Samples.types "buffer list" t
              [Samples.count; Samples.items] Samples.count eq_refl
              (dict_get_Some_elem_of _ _ _ Ht)
              ltac:(injection Ht as <-; vm_compute; left)
              ltac:(vm_compute; left)) as (a & Htarget & _ & Hlength).
  exists a. split; [exact Htarget|]. apply Hlength. by eexists.
Defined.

(** ** Structures that contain themselves *)

Section recursion_facts.
Context {names : nameutils}.

(** X21.  If the first visible member of a structure is a required,
    unannotated value of that same structure type, without a truthy default
    and without a zero-defaulted length, the question whether the structure
    has a default initializer asks itself again without end: at every depth
    allowed the outcome is [RecursionError]. *)
Theorem self_embedding_structure_recurses_without_end
    fuel types k t members m rest :
  swift_members members = m :: rest →
  Member.optional m = false →
  length_defaults_to_zero members m = false →
  (∀ d, Member.default m = Some d → truthy d = false) →
  truthy_opt_str (Member.annotation m) = false →
  m_type m = Some k → dict_get k types = Some t →
  t_variant t = VStructure members →
  has_default_swift_initializer fuel types members = Err RecursionError.
Proof.
  intros Hsm Hopt Hlen Hd Hann Hty Hk Hv.
  induction fuel as [|fuel IH]; [done|].
  rewrite has_default_swift_initializer_S, Hsm. simpl.
  unfold default_swift_value, default_swift_value_body.
  rewrite Hopt, Hlen.
  assert (Hstruct :
    structure_default (has_default_swift_initializer fuel types) types m
    = Err RecursionError).
  { unfold structure_default. rewrite Hty. simpl. by rewrite Hk, Hv, Hann, IH. }
  destruct (Member.default m) as [d|] eqn:Hdef.
  - by rewrite (Hd d eq_refl), Hstruct.
  - by rewrite Hstruct.
Qed.

End recursion_facts.

Lemma self_embedding_structure_recurses_without_end_witness :
  Model.init MoreSamples.self_schema None = Ok MoreSamples.self_types
  ∧ has_default_swift_initializer (names := Samples.names) 1000
      MoreSamples.self_types [MoreSamples.next] = Err RecursionError.
Proof.
  split; [reflexivity|].
  destruct (dict_get "node" MoreSamples.self_types) as [t|] eqn:Ht; [|discriminate Ht].
  apply (self_embedding_structure_recurses_without_end (names := Samples.names)
           1000 MoreSamples.self_types "node" t [MoreSamples.next] MoreSamples.next []);
    [reflexivity | reflexivity | reflexivity | | reflexivity | reflexivity | exact Ht |].
  - intros d Hd. discriminate Hd.
  - injection Ht as <-. reflexivity.
Defined.
